(** * concatdv: the media tools module ([mediatools.py])

    A shallow embedding of [mediatools.py] and the properties of its
    argument builder, metadata parser, file ordering and transcode
    monitor.

    Conventions.  Python [str] values are Rocq strings (sequences of
    characters with code below 256).  Effects that the module performs on
    its surroundings (temporary files, the [logging] module, the console)
    are threaded through an explicit [World]; Python exceptions are the
    [Raise] outcome of a computation.  What the surroundings decide (the
    names [tempfile.mkstemp] draws, the text printed by [mediainfo], the
    behaviour of the spawned [ffmpeg] process) is data of the model. *)

From Stdlib Require Import String Ascii ZArith List Lia Permutation Sorted.
From stdpp Require Import gmap strings list fin_maps pretty.
Import ListNotations.

Local Open Scope string_scope.
Local Open Scope list_scope.

(** ** Python built-ins on strings *)

Module Py.

Definition len (s : string) : nat := String.length s.

(** [s.startswith(p)] *)
Definition startswith (s p : string) : bool := String.prefix p s.

Fixpoint drop (n : nat) (s : string) : string :=
  match n, s with
  | O, _ => s
  | S _, EmptyString => EmptyString
  | S n', String _ s' => drop n' s'
  end.

(** The leftmost occurrence of [sep] in [s]: the text before it and the
    text after it. *)
Fixpoint partition (sep s : string) : option (string * string) :=
  if String.prefix sep s then Some (EmptyString, drop (String.length sep) s)
  else match s with
       | EmptyString => None
       | String c s' =>
           match partition sep s' with
           | Some (a, b) => Some (String c a, b)
           | None => None
           end
       end.

(** [s.split(sep, 1)], for a non-empty [sep]: at most one split. *)
Definition split1 (s sep : string) : list string :=
  match partition sep s with
  | Some (a, b) => [a; b]
  | None => [s]
  end.

(** [s.replace(old, new)] for one-character [old] and [new]. *)
Fixpoint replace (s : string) (old new : ascii) : string :=
  match s with
  | EmptyString => EmptyString
  | String c s' =>
      String (if Ascii.eqb c old then new else c) (replace s' old new)
  end.

(** [sep.join(l)] *)
Definition join (sep : string) (l : list string) : string :=
  String.concat sep l.

(** [" " * n]; a count that is not positive gives the empty string. *)
Fixpoint spaces (n : nat) : string :=
  match n with
  | O => EmptyString
  | S n' => String " " (spaces n')
  end.

(** [str.isspace] on one character: the ASCII white space, the
    separators 0x1c to 0x1f, NEL and the no-break space. *)
Definition isspace (c : ascii) : bool :=
  let n := nat_of_ascii c in
  ((9 <=? n)%nat && (n <=? 13)%nat) || ((28 <=? n)%nat && (n <=? 32)%nat)
  || (n =? 133)%nat || (n =? 160)%nat.

Fixpoint lstrip (s : string) : string :=
  match s with
  | EmptyString => EmptyString
  | String c s' => if isspace c then lstrip s' else s
  end.

Fixpoint rstrip (s : string) : string :=
  match s with
  | EmptyString => EmptyString
  | String c s' =>
      match rstrip s' with
      | EmptyString => if isspace c then EmptyString else String c EmptyString
      | r => String c r
      end
  end.

(** [s.strip()] *)
Definition strip (s : string) : string := rstrip (lstrip s).

Definition LF : ascii := ascii_of_nat 10.
Definition CR : ascii := ascii_of_nat 13.

(** Cutting a text into lines at the characters [brk] accepts; a
    carriage return directly followed by a line feed is one boundary.
    The line ends are not kept and a final line needs no terminator. *)
Fixpoint lines_by (brk : ascii -> bool) (s : string) : list string :=
  match s with
  | EmptyString => []
  | String c s' =>
      if brk c then
        match s' with
        | String c' s'' =>
            if Ascii.eqb c CR && Ascii.eqb c' LF
            then EmptyString :: lines_by brk s''
            else EmptyString :: lines_by brk s'
        | EmptyString => [EmptyString]
        end
      else
        match lines_by brk s' with
        | [] => [String c EmptyString]
        | l :: ls => String c l :: ls
        end
  end.

(** The line boundaries of [str.splitlines]. *)
Definition is_linebreak (c : ascii) : bool :=
  let n := nat_of_ascii c in
  ((10 <=? n)%nat && (n <=? 13)%nat) || ((28 <=? n)%nat && (n <=? 30)%nat)
  || (n =? 133)%nat.

(** [s.splitlines()] *)
Definition splitlines (s : string) : list string := lines_by is_linebreak s.

(** The line boundaries of a text file read with universal newlines. *)
Definition is_newline (c : ascii) : bool := Ascii.eqb c LF || Ascii.eqb c CR.

(** The lines of a text file read back ([for l in f], line ends
    removed). *)
Definition readlines (content : string) : list string :=
  lines_by is_newline content.

(** [str(n)] for a length. *)
Definition str_of_nat (n : nat) : string := pretty n.

End Py.

(** ** Effects: the world, exceptions and the monad *)

Inductive exn : Set :=
| IndexError
| ValueError
| KeyError
| OSError
| FileExistsError.

Inductive result (A : Type) : Type :=
| Ok (a : A)
| Raise (e : exn).
Arguments Ok {A} a.
Arguments Raise {A} e.

Inductive level : Set := DEBUG | INFO | WARNING | ERROR.

(** Where the output of a spawned process goes: [subprocess.DEVNULL], or
    a file opened for writing, identified with its path. *)
Inductive handle : Set :=
| DEVNULL
| LogFile (path : string).

Record World : Type := mkWorld {
  files : gmap string string;      (* text files by path *)
  tmp_names : list string;         (* the names mkstemp draws, in order *)
  atexit_unlink : list string;     (* paths registered for removal at exit *)
  log_records : list (level * string);  (* records handed to [log] *)
  console : list string;           (* texts written to standard output *)
  spawned : list (list string * handle)
                                   (* processes started: arguments and
                                      where their output goes *)
}.

Definition with_files (f : gmap string string) (w : World) : World :=
  mkWorld f (tmp_names w) (atexit_unlink w) (log_records w) (console w)
          (spawned w).
Definition with_tmp_names (t : list string) (w : World) : World :=
  mkWorld (files w) t (atexit_unlink w) (log_records w) (console w)
          (spawned w).
Definition with_atexit_unlink (a : list string) (w : World) : World :=
  mkWorld (files w) (tmp_names w) a (log_records w) (console w) (spawned w).
Definition with_log_records (l : list (level * string)) (w : World) : World :=
  mkWorld (files w) (tmp_names w) (atexit_unlink w) l (console w) (spawned w).
Definition with_console (c : list string) (w : World) : World :=
  mkWorld (files w) (tmp_names w) (atexit_unlink w) (log_records w) c
          (spawned w).
Definition with_spawned (p : list (list string * handle)) (w : World)
  : World :=
  mkWorld (files w) (tmp_names w) (atexit_unlink w) (log_records w)
          (console w) p.

Definition M (A : Type) : Type := World -> result A * World.

Definition ret {A} (a : A) : M A := fun w => (Ok a, w).

Definition raise {A} (e : exn) : M A := fun w => (Raise e, w).

Definition bind {A B} (c : M A) (k : A -> M B) : M B :=
  fun w =>
    match c w with
    | (Ok a, w') => k a w'
    | (Raise e, w') => (Raise e, w')
    end.

Declare Scope py_scope.
Delimit Scope py_scope with py.
Notation "x <- c ;; k" := (bind c (fun x => k))
  (at level 100, c at next level, right associativity) : py_scope.
Notation "c ;; k" := (bind c (fun _ => k))
  (at level 100, right associativity) : py_scope.
Local Open Scope py_scope.

(** [for x in l: body x] *)
Fixpoint for_each {A} (l : list A) (body : A -> M unit) : M unit :=
  match l with
  | [] => ret tt
  | x :: l' => body x ;; for_each l' body
  end.

(** [[f x for x in l]], with the effects of [f] in list order *)
Fixpoint map_M {A B} (f : A -> M B) (l : list A) : M (list B) :=
  match l with
  | [] => ret []
  | x :: l' => y <- f x ;; ys <- map_M f l' ;; ret (y :: ys)
  end.

(** [log.<level>(msg)] *)
Definition log (lv : level) (msg : string) : M unit :=
  fun w => (Ok tt, with_log_records (log_records w ++ [(lv, msg)]) w).

(** [print(text, end=e)] on standard output *)
Definition print (text e : string) : M unit :=
  fun w => (Ok tt, with_console (console w ++ [text +:+ e]) w).

(** The first drawn name that no file bears, and the names left. *)
Fixpoint first_unused (fs : gmap string string) (names : list string)
  : option (string * list string) :=
  match names with
  | [] => None
  | n :: rest =>
      match fs !! n with
      | None => Some (n, rest)
      | Some _ => first_unused fs rest
      end
  end.

(** [tempfile.mkstemp(text=True)]: draws names until one is unused and
    creates that file, empty; [FileExistsError] when the draws run out.
    The descriptor is identified with the path. *)
Definition mkstemp : M string :=
  fun w =>
    match first_unused (files w) (tmp_names w) with
    | Some (n, rest) =>
        (Ok n,
         with_tmp_names rest (with_files (<[n := EmptyString]> (files w)) w))
    | None => (Raise FileExistsError, w)
    end.

(** [atexit.register(lambda: os.unlink(path))] *)
Definition atexit_register_unlink (path : string) : M unit :=
  fun w => (Ok tt, with_atexit_unlink (atexit_unlink w ++ [path]) w).

(** [print(text, file=tf)]: appends the text and a line feed. *)
Definition print_to (tf : string) (text : string) : M unit :=
  fun w =>
    let old := default EmptyString (files w !! tf) in
    let new := old +:+ text +:+ String Py.LF EmptyString in
    (Ok tt, with_files (<[tf := new]> (files w)) w).

(** ** Presets and the argument builder *)

Inductive ConcatStrategy : Set :=
| CONCAT_PROTOCOL
| CONCAT_FILTER
| CONCAT_DEMUX.

Record Preset : Type := mkPreset {
  ffmpeg_params : list string;
  complex_filters : list string;
  description : string;
  concat_strategy : ConcatStrategy
}.

Definition build_ffmpeg_params (self : Preset) (input_files : list string)
  : M (list string) :=
  let args : list string := [] in
  args <-
    match concat_strategy self with
    | CONCAT_PROTOCOL =>
        ret (args ++ ["-i"; "concat:" +:+ Py.join "|" input_files])
    | CONCAT_FILTER =>
        let args :=
          args ++ List.concat (List.map (fun f => ["-i"; f]) input_files) in
        let args :=
          args ++ ["-filter_complex";
                   "concat=n=" +:+ Py.str_of_nat (length input_files)
                   +:+ ":v=1:a=1[catv][outa];[catv]"
                   +:+ Py.join "," (complex_filters self) +:+ "[outv]"] in
        ret (args ++ ["-map"; "[outv]"; "-map"; "[outa]"])
    | CONCAT_DEMUX =>
        tempfile_path <- mkstemp ;;
        atexit_register_unlink tempfile_path ;;
        for_each input_files (fun input_file =>
          let path := Py.replace input_file "\" "/" in
          print_to tempfile_path ("file 'file:" +:+ path +:+ "'")) ;;
        ret (args ++ ["-f"; "concat"; "-safe"; "0"; "-i"; tempfile_path])
    end ;;
  ret (args ++ ffmpeg_params self).

(** The entries of [encode_presets], and the table itself. *)
Definition preset_copy : Preset :=
  mkPreset ["-c"; "copy"] []
    "Directly copy input to output. Uses the FFMPEG concat demuxer to concatenate without re-encoding. Only suited for concatenating files with the exact same codecs and parameters (e.g. scenes from a camera)."
    CONCAT_DEMUX.

Definition preset_copydv : Preset :=
  mkPreset ["-c"; "copy"] []
    "Directly copy input to output. Only suited for MPEG-2 (includes DV) files with equal codec properties due to use of the concatenation protocol."
    CONCAT_PROTOCOL.

Definition preset_1080p : Preset :=
  mkPreset
    ["-c:v"; "libx265"; "-crf"; "28"; "-preset"; "medium"; "-c:a"; "flac"]
    ["scale=-1:1080"]
    "Transcode to 1080p using libx265 with a CRF of 28 and FLAC audio. Suited for any input format."
    CONCAT_FILTER.

Definition preset_4k : Preset :=
  mkPreset
    ["-c:v"; "libx265"; "-crf"; "28"; "-preset"; "medium"; "-c:a"; "flac"]
    ["scale=-1:2160"]
    "Transcode to 4k UHD using libx265 with a CRF of 28 and FLAC audio. Suited for any input format."
    CONCAT_FILTER.

Definition encode_presets : list (string * Preset) :=
  [ ("copy", preset_copy);
    ("copydv", preset_copydv);
    ("1080p", preset_1080p);
    ("4k", preset_4k) ].

(** ** Time stamps *)

(** A naive [datetime.datetime]: its seven fields. *)
Record datetime : Set := mkdatetime {
  year : Z; month : Z; day : Z;
  hour : Z; minute : Z; second : Z; microsecond : Z
}.

Definition dt_fields (d : datetime) : list Z :=
  [year d; month d; day d; hour d; minute d; second d; microsecond d].

Fixpoint lex_ltb (a b : list Z) : bool :=
  match a, b with
  | x :: a', y :: b' => (x <? y)%Z || ((x =? y)%Z && lex_ltb a' b')
  | [], _ :: _ => true
  | _, [] => false
  end.

(** [d1 < d2] on naive time stamps: the fields compared in order. *)
Definition dt_ltb (d1 d2 : datetime) : bool :=
  lex_ltb (dt_fields d1) (dt_fields d2).

(** ** File metadata *)

(** Modelled from the spec: the class [FileMeta] of the module [meta],
    which is not among the sources: a record of three optional fields,
    [datetime], [milliseconds] and [frames], each unset ([None]) in a
    fresh instance. *)
Record FileMeta : Set := mkFileMeta {
  fm_datetime : option datetime;
  fm_milliseconds : option Z;
  fm_frames : option Z
}.

Definition FileMeta_new : FileMeta := mkFileMeta None None None.

(** Truth values: a [datetime] object is always true; an integer is true
    unless it is zero; [None] is false. *)
Definition truthy_datetime (o : option datetime) : bool :=
  match o with Some _ => true | None => false end.

Definition truthy_int (o : option Z) : bool :=
  match o with Some n => negb (n =? 0)%Z | None => false end.

(** Sequencing of computations that only return or raise. *)
Definition and_then {A B} (r : result A) (k : A -> result B) : result B :=
  match r with
  | Ok a => k a
  | Raise e => Raise e
  end.

(** [l[1]] *)
Definition item_1 (l : list string) : result string :=
  match l !! 1%nat with
  | Some x => Ok x
  | None => Raise IndexError
  end.

(** [try: body  except ValueError: pass], where the body updates [info] *)
Definition except_ValueError_pass (info : FileMeta) (body : result FileMeta)
  : result FileMeta :=
  match body with
  | Raise ValueError => Ok info
  | r => r
  end.

Section GetMeta.

(** [datetime.datetime.strptime(text, format)] and [int(text)], each
    with [None] for the [ValueError] it raises on a text it rejects. *)
Variable strptime : string -> string -> option datetime.
Variable int : string -> option Z.

(** The standard output of [mediainfo --fullscan file], decoded. *)
Variable mediainfo_fullscan : string -> string.

Definition strptime_r (text format : string) : result datetime :=
  match strptime text format with
  | Some d => Ok d
  | None => Raise ValueError
  end.

Definition int_r (text : string) : result Z :=
  match int text with
  | Some n => Ok n
  | None => Raise ValueError
  end.

(** [line.split(": ", 1)[1]] *)
Definition value_of (line : string) : result string :=
  item_1 (Py.split1 line ": ").

(** The four [if] statements of the loop body of [get_meta]. *)
Definition scan_recorded_date (info : FileMeta) (line : string)
  : result FileMeta :=
  if Py.startswith line "Recorded date"
     && negb (truthy_datetime (fm_datetime info))
  then and_then (value_of line) (fun v =>
       and_then (strptime_r v "%Y-%m-%d %H:%M:%S.000") (fun d =>
       Ok (mkFileMeta (Some d) (fm_milliseconds info) (fm_frames info))))
  else Ok info.

Definition scan_tagged_date (info : FileMeta) (line : string)
  : result FileMeta :=
  if Py.startswith line "Tagged date"
     && negb (truthy_datetime (fm_datetime info))
  then and_then (value_of line) (fun v =>
       and_then (strptime_r v "%Z %Y-%m-%d %H:%M:%S") (fun d =>
       Ok (mkFileMeta (Some d) (fm_milliseconds info) (fm_frames info))))
  else Ok info.

Definition scan_duration (info : FileMeta) (line : string)
  : result FileMeta :=
  if Py.startswith line "Duration"
     && negb (truthy_int (fm_milliseconds info))
  then except_ValueError_pass info
         (and_then (value_of line) (fun v =>
          and_then (int_r v) (fun n =>
          Ok (mkFileMeta (fm_datetime info) (Some n) (fm_frames info)))))
  else Ok info.

Definition scan_frame_count (info : FileMeta) (line : string)
  : result FileMeta :=
  if Py.startswith line "Frame count"
     && negb (truthy_int (fm_frames info))
  then and_then (value_of line) (fun v =>
       and_then (int_r v) (fun n =>
       Ok (mkFileMeta (fm_datetime info) (fm_milliseconds info) (Some n))))
  else Ok info.

(** The body of the loop of [get_meta] on one line. *)
Definition scan_line (info : FileMeta) (line : string) : result FileMeta :=
  and_then (scan_recorded_date info line) (fun info =>
  and_then (scan_tagged_date info line) (fun info =>
  and_then (scan_duration info line) (fun info =>
  scan_frame_count info line))).

(** [for line in lines: ...], starting from [info] *)
Fixpoint scan_lines (info : FileMeta) (lines : list string)
  : result FileMeta :=
  match lines with
  | [] => Ok info
  | line :: rest => and_then (scan_line info line) (fun info' =>
                    scan_lines info' rest)
  end.

(** The report parser of [get_meta], from the decoded output on. *)
Definition parse_report (output : string) : result FileMeta :=
  scan_lines FileMeta_new (Py.splitlines output).

Definition get_meta (file : string) : result FileMeta :=
  parse_report (mediainfo_fullscan file).

End GetMeta.

(** Reference parsers, for running [get_meta] on written-out reports.
    [Reference.int] reads plain decimal numerals (white space around, one
    optional sign, ASCII digits); [Reference.strptime] reads zero-padded
    stamps in the two formats [get_meta] uses, with the zone names UTC and
    GMT.  The general properties below hold for any [strptime] and
    [int]. *)
Module Reference.

Definition digit (c : ascii) : option Z :=
  let n := nat_of_ascii c in
  if (48 <=? n)%nat && (n <=? 57)%nat then Some (Z.of_nat (n - 48))
  else None.

Fixpoint digits (s : string) (acc : Z) : option Z :=
  match s with
  | EmptyString => Some acc
  | String c s' =>
      match digit c with
      | Some d => digits s' (10 * acc + d)%Z
      | None => None
      end
  end.

Definition number (s : string) : option Z :=
  match s with
  | EmptyString => None
  | _ => digits s 0%Z
  end.

Definition int (text : string) : option Z :=
  match Py.strip text with
  | String "-" s => Z.opp <$> number s
  | String "+" s => number s
  | s => number s
  end.

Definition leap (y : Z) : bool :=
  ((y mod 4 =? 0) && negb (y mod 100 =? 0) || (y mod 400 =? 0))%Z.

Definition days_in_month (y m : Z) : Z :=
  if (m =? 2)%Z then (if leap y then 29 else 28)%Z
  else if ((m =? 4) || (m =? 6) || (m =? 9) || (m =? 11))%Z then 30%Z
  else 31%Z.

Definition between (lo x hi : Z) : bool := ((lo <=? x) && (x <=? hi))%Z.

(** A stamp [YYYY-MM-DD HH:MM:SS] of nineteen characters. *)
Definition stamp (s : string) : option datetime :=
  if (String.length s =? 19)%nat
     && String.eqb (substring 4 1 s) "-" && String.eqb (substring 7 1 s) "-"
     && String.eqb (substring 10 1 s) " "
     && String.eqb (substring 13 1 s) ":"
     && String.eqb (substring 16 1 s) ":"
  then
    match number (substring 0 4 s), number (substring 5 2 s),
          number (substring 8 2 s), number (substring 11 2 s),
          number (substring 14 2 s), number (substring 17 2 s) with
    | Some y, Some mo, Some d, Some h, Some mi, Some sec =>
        if between 1 y 9999 && between 1 mo 12
           && between 1 d (days_in_month y mo)
           && between 0 h 23 && between 0 mi 59 && between 0 sec 59
        then Some (mkdatetime y mo d h mi sec 0)
        else None
    | _, _, _, _, _, _ => None
    end
  else None.

Definition strptime (text format : string) : option datetime :=
  if String.eqb format "%Y-%m-%d %H:%M:%S.000" then
    if (String.length text =? 23)%nat
       && String.eqb (substring 19 4 text) ".000"
    then stamp (substring 0 19 text)
    else None
  else if String.eqb format "%Z %Y-%m-%d %H:%M:%S" then
    if (String.length text =? 23)%nat
       && (String.prefix "UTC " text || String.prefix "GMT " text)
    then stamp (substring 4 19 text)
    else None
  else None.

End Reference.

(** ** The list of files and its orderings *)

Record FileList : Type := mkFileList {
  paths : list string;
  meta : gmap string FileMeta
}.

(** [sorted(l, key=...)] once the keys are computed.  Python's sort is
    stable and compares with [<] only; an insertion sort that moves an
    element past the strictly smaller ones is the stable sort, which is
    unique. *)
Section Sorted.
Context {K A : Type} (ltb : K -> K -> bool).

Fixpoint insert_sorted (x : K * A) (l : list (K * A)) : list (K * A) :=
  match l with
  | [] => [x]
  | y :: l' =>
      if ltb (fst y) (fst x) then y :: insert_sorted x l'
      else x :: y :: l'
  end.

Fixpoint sort_keyed (l : list (K * A)) : list (K * A) :=
  match l with
  | [] => []
  | x :: l' => insert_sorted x (sort_keyed l')
  end.

Definition sorted_with_keys (keys : list K) (l : list A) : list A :=
  List.map snd (sort_keyed (List.combine keys l)).
End Sorted.

Section FileListOps.

(** [datetime.datetime.fromtimestamp(0)]: the epoch origin in local
    time. *)
Variable fromtimestamp_0 : datetime.

Definition _get_sort_datetime (self : FileList) (path : string)
  : M datetime :=
  match meta self !! path with
  | None => raise KeyError
  | Some m =>
      match fm_datetime m with
      | None =>
          log WARNING ("No recorded date for " +:+ path
                       +:+ "; inserting at beginning") ;;
          ret fromtimestamp_0
      | Some dt => ret dt
      end
  end.

Definition sort_by_datetime (self : FileList) : M FileList :=
  keys <- map_M (_get_sort_datetime self) (paths self) ;;
  ret (mkFileList (sorted_with_keys dt_ltb keys (paths self)) (meta self)).

End FileListOps.

(** ** Running the transcoder *)

(** The spawned process as the caller observes it: what
    [logfile_in.readline()] returns in each turn of the monitoring loop
    taken while [proc.poll()] is still [None] (the empty string when the
    log has nothing new), and the exit status found once it has ended. *)
Record Process : Type := mkProcess {
  reads : list string;
  returncode : Z
}.

(** The local variables the monitoring loop carries from turn to turn. *)
Record Monitor : Type := mkMonitor {
  test : option string;
  prev_line : string
}.

(** Truth value of a path argument: [None] and the empty string are
    false. *)
Definition truthy_str (o : option string) : bool :=
  match o with
  | Some EmptyString => false
  | Some _ => true
  | None => false
  end.

(** [time.sleep(.5)] *)
Definition sleep_half : M unit := ret tt.

(** What the monitor prints for [line] after [prev_line]. *)
Definition rendered (prev_line line : string) : string :=
  let line_shortness :=
    (Z.of_nat (Py.len prev_line) - Z.of_nat (Py.len line))%Z in
  let padding :=
    if (line_shortness >? 0)%Z then Py.spaces (Z.to_nat line_shortness)
    else EmptyString in
  Py.strip line +:+ padding.

(** One turn of [while proc.poll() is None], in which [readline]
    returns [r]. *)
Definition monitor_turn (st : Monitor) (r : string) : M Monitor :=
  let line := test st in
  let test := Some r in
  if truthy_str test then ret (mkMonitor test (prev_line st))
  else
    prev_line' <-
      (if truthy_str line then
         let l := default EmptyString line in
         if Py.startswith l "frame=" then
           print (rendered (prev_line st) l) (String Py.CR EmptyString) ;;
           ret l
         else ret (prev_line st)
       else ret (prev_line st)) ;;
    sleep_half ;;
    ret (mkMonitor test prev_line').

Fixpoint monitor_loop (st : Monitor) (rs : list string) : M Monitor :=
  match rs with
  | [] => ret st
  | r :: rs' => st' <- monitor_turn st r ;; monitor_loop st' rs'
  end.

Section Executor.

Variable ffmpeg_exe : string.

(** Whether [open(path, "wb")] and [open(path, "r")] succeed. *)
Variable can_open_wb : string -> bool.
Variable can_open_r : string -> bool.

(** The process [subprocess.Popen] starts for an argument vector and an
    output file. *)
Variable popen : list string -> handle -> Process.

(** Modelled from the spec: [open_if_exists] of the module [util], which
    is not among the sources (a guarded file opening): it yields the
    opened file, and yields nothing when no path is given or when the
    file cannot be opened. *)
Definition open_if_exists (path : option string) : option string :=
  match path with
  | Some p => if truthy_str path && can_open_wb p then Some p else None
  | None => None
  end.

(** [open(path, "r")] *)
Definition open_r (path : string) : M unit :=
  if can_open_r path then ret tt else raise OSError.

(** [subprocess.Popen(args, stdout=h, stderr=h, stdin=DEVNULL)] *)
Definition Popen (args : list string) (h : handle) : M Process :=
  fun w => (Ok (popen args h), with_spawned (spawned w ++ [(args, h)]) w).

Definition do_concatenation (files : list string) (output : string)
    (preset : Preset) (logfile_path : option string) : M unit :=
  let f := open_if_exists logfile_path in
  let logfile_handle :=
    match f with Some opened => LogFile opened | None => DEVNULL end in
  log INFO "Starting video processing. This can take a while..." ;;
  params <- build_ffmpeg_params preset files ;;
  let args := [ffmpeg_exe] ++ params ++ ["-y"; output] in
  log DEBUG ("Executing: "
             +:+ Py.join " " (List.map (fun a => "'" +:+ a +:+ "'") args)) ;;
  proc <- Popen args logfile_handle ;;
  (if truthy_str logfile_path then
     open_r (default EmptyString logfile_path) ;;
     monitor_loop (mkMonitor None EmptyString) (reads proc) ;;
     print EmptyString (String Py.LF EmptyString) ;;
     if negb (returncode proc =? 0)%Z
     then log ERROR "Encoding failed. Check the log file for the error."
     else ret tt
   else
     if negb (returncode proc =? 0)%Z
     then log ERROR "Encoding failed. Re-run with logging to find out what went wrong."
     else ret tt) ;;
  if (returncode proc =? 0)%Z then log INFO "Processing done." else ret tt.

End Executor.

(** ** The rest of the file list *)

(** [FileList(mediatools, metacache)]: no path and no metadata yet. *)
Definition FileList_new : FileList := mkFileList [] ∅.

(** [FileList.get_meta]: [self.meta.get(path)], [None] for a path without
    entry. *)
Definition FileList_get_meta (self : FileList) (path : string)
  : option FileMeta :=
  meta self !! path.

(** [FileList.get_paths] *)
Definition FileList_get_paths (self : FileList) : list string := paths self.

(** [sorted(self.paths)]: the paths compared with [<], character code by
    character code. *)
Definition sort_by_path (self : FileList) : FileList :=
  mkFileList (sorted_with_keys String.ltb (paths self) (paths self))
             (meta self).

Section FileListCollaborators.

(** [self._metacache.get(path, compute)]: the cache is the module
    [metacache], which is not among the sources; what it answers for a
    path and a compute function, a record or an exception, is taken as
    given.  [mediatools_get_meta] is the [get_meta] of the [MediaTools]
    the list was made with. *)
Variable metacache_get :
  string -> (string -> result FileMeta) -> result FileMeta.
Variable mediatools_get_meta : string -> result FileMeta.

(** [os.path.basename], which depends on the platform. *)
Variable basename : string -> string.

Definition add_file (self : FileList) (path : string) : result FileList :=
  and_then (metacache_get path mediatools_get_meta) (fun fetched =>
  let meta' := <[path := fetched]> (meta self) in
  Ok (mkFileList (paths self ++ [path]) meta')).

(** [sorted(self.paths, key=os.path.basename)] *)
Definition sort_by_filename (self : FileList) : FileList :=
  mkFileList
    (sorted_with_keys String.ltb (List.map basename (paths self))
                      (paths self))
    (meta self).

End FileListCollaborators.

(** [posixpath.basename]: what follows the last slash, the whole path
    when it has none. *)
Fixpoint after_last_slash (p : string) : option string :=
  match p with
  | EmptyString => None
  | String c p' =>
      match after_last_slash p' with
      | Some b => Some b
      | None => if Ascii.eqb c "/" then Some p' else None
      end
  end.

Definition posix_basename (p : string) : string :=
  default p (after_last_slash p).

(** ** Finding the tools *)

Record MediaTools : Type := mkMediaTools {
  mt_mediainfo_exe : string;
  mt_ffmpeg_exe : string
}.

(** How [MediaTools()] ends: with the object, or with the exception
    [MediaToolsNotInstalledException] and its message. *)
Inductive constructed : Type :=
| Constructed (self : MediaTools)
| MediaToolsNotInstalledException (message : string).

(** [a or b] on what [shutil.which] returns *)
Definition or_else (a b : option string) : option string :=
  if truthy_str a then a else b.

(** [MediaTools.__init__]; [which] is [shutil.which]. *)
Definition MediaTools_init (which : string -> option string) : constructed :=
  match which "mediainfo" with
  | None =>
      MediaToolsNotInstalledException
        "mediainfo commandline tool not found. Use e.g. sudo apt install mediainfo (on Debian/Ubuntu) or choco install mediainfo-cli (on Windows with Chocolatey) to install it."
  | Some mediainfo_exe =>
      match or_else (which "ffmpeg") (which "avconv") with
      | None =>
          MediaToolsNotInstalledException
            "ffmpeg or avconv commandline tool not found. Use e.g. sudo apt install ffmpeg (on Debian/Ubuntu) or choco install ffmpeg (on Windows with Chocolatey) to install it."
      | Some ffmpeg_exe => Constructed (mkMediaTools mediainfo_exe ffmpeg_exe)
      end
  end.

(** * Vocabulary of the properties

    The words of the specification, written out: what a manifest holds,
    which line of a report gives the time stamp, which key a path is sorted
    by, what the run logs as its outcome; and the worlds, reports and log
    lines of the examples. *)

(** The directive the Demux strategy writes for one input. *)
Definition manifest_line (input_file : string) : string :=
  "file 'file:" +:+ Py.replace input_file "\" "/" +:+ "'".

(** The text of a manifest: one directive and a line feed per input. *)
Fixpoint manifest_text (input_files : list string) : string :=
  match input_files with
  | [] => EmptyString
  | f :: rest =>
      manifest_line f +:+ String Py.LF EmptyString +:+ manifest_text rest
  end.

(** The token pairs of the Filter strategy, as the specification words
    them: one ["-i"; path] pair per input. *)
Definition input_pairs (input_files : list string) : list string :=
  List.concat (List.map (fun f => ["-i"; f]) input_files).

(** The filter graph of the Filter strategy. *)
Definition filter_graph (n : nat) (filters : list string) : string :=
  "concat=n=" +:+ Py.str_of_nat n +:+ ":v=1:a=1[catv][outa];[catv]"
  +:+ Py.join "," filters +:+ "[outv]".

(** A path without line feed and without carriage return. *)
Fixpoint no_newline (s : string) : bool :=
  match s with
  | EmptyString => true
  | String c s' => negb (Py.is_newline c) && no_newline s'
  end.

(** A line of the report that sets the time stamp, and the format its
    value is read with. *)
Definition is_date_line (line : string) : bool :=
  Py.startswith line "Recorded date" || Py.startswith line "Tagged date".

Definition date_format (line : string) : string :=
  if Py.startswith line "Recorded date" then "%Y-%m-%d %H:%M:%S.000"
  else "%Z %Y-%m-%d %H:%M:%S".

(** The time stamp a date line carries. *)
Definition date_of_line (strptime : string -> string -> option datetime)
    (line : string) : result datetime :=
  and_then (value_of line) (fun v => strptime_r strptime v (date_format line)).

(** The time stamp of a report, as the first date line gives it. *)
Definition first_date (strptime : string -> string -> option datetime)
    (lines : list string) : result (option datetime) :=
  match List.find is_date_line lines with
  | None => Ok None
  | Some line => and_then (date_of_line strptime line) (fun d => Ok (Some d))
  end.

(** The lines [get_meta] reads without raising: a date line and a frame
    count line carry a value their parser accepts, and a Duration line
    has its separator. *)
Definition line_well_formed (strptime : string -> string -> option datetime)
    (int : string -> option Z) (line : string) : Prop :=
  (Py.startswith line "Recorded date" = true ->
     exists v d, value_of line = Ok v
                 /\ strptime v "%Y-%m-%d %H:%M:%S.000" = Some d)
  /\ (Py.startswith line "Tagged date" = true ->
     exists v d, value_of line = Ok v
                 /\ strptime v "%Z %Y-%m-%d %H:%M:%S" = Some d)
  /\ (Py.startswith line "Duration" = true ->
     exists v, value_of line = Ok v)
  /\ (Py.startswith line "Frame count" = true ->
     exists v n, value_of line = Ok v /\ int v = Some n).

(** A Duration line whose value is not a valid integer. *)
Definition duration_miss (int : string -> option Z) (line : string) : Prop :=
  Py.startswith line "Duration" = true ->
  forall v, value_of line = Ok v -> int v = None.

(** A report written line by line. *)
Definition report (lines : list string) : string :=
  Py.join (String Py.LF EmptyString) lines.

(** [x] may stand before [y] in a sorted list: [y] is not smaller. *)
Definition not_after {K A : Type} (ltb : K -> K -> bool) (x y : K * A)
  : Prop :=
  ltb (fst y) (fst x) = false.

(** The elements tied with the key [k]. *)
Definition tied {K A : Type} (ltb : K -> K -> bool) (k : K) (y : K * A)
  : bool :=
  negb (ltb k (fst y)) && negb (ltb (fst y) k).

(** The key a path is sorted by: its time stamp, or the epoch origin
    when it has none. *)
Definition sort_key (fromtimestamp_0 : datetime) (self : FileList)
    (path : string) : datetime :=
  match meta self !! path with
  | Some m => default fromtimestamp_0 (fm_datetime m)
  | None => fromtimestamp_0
  end.

(** The paths whose metadata has no time stamp. *)
Definition unset_datetime (self : FileList) (path : string) : bool :=
  match meta self !! path with
  | Some m => negb (truthy_datetime (fm_datetime m))
  | None => false
  end.

(** The warning [_get_sort_datetime] logs for a path. *)
Definition warning_for (path : string) : level * string :=
  (WARNING, "No recorded date for " +:+ path +:+ "; inserting at beginning").

Definition CR_str : string := String Py.CR EmptyString.
Definition LF_str : string := String Py.LF EmptyString.

(** The argument vector of the process. *)
Definition command_line (ffmpeg_exe : string) (params : list string)
    (output : string) : list string :=
  [ffmpeg_exe] ++ params ++ ["-y"; output].

(** Where the output of the process goes, for what [open_if_exists]
    yields. *)
Definition handle_of (f : option string) : handle :=
  match f with Some opened => LogFile opened | None => DEVNULL end.

(** The record logged before the process is started. *)
Definition executing_record (args : list string) : level * string :=
  (DEBUG, "Executing: "
          +:+ Py.join " " (List.map (fun a => "'" +:+ a +:+ "'") args)).

(** The world once the start of the processing has been logged. *)
Definition started (w : World) : World :=
  with_log_records
    (log_records w
     ++ [(INFO, "Starting video processing. This can take a while...")]) w.

(** What [do_concatenation] logs about the exit status: the outcome of
    the run. *)
Definition verdict (logging : bool) (rc : Z) : list (level * string) :=
  if (rc =? 0)%Z then [(INFO, "Processing done.")]
  else [(ERROR,
         if logging
         then "Encoding failed. Check the log file for the error."
         else "Encoding failed. Re-run with logging to find out what went wrong.")].

(** ** Worlds, reports and processes of the examples *)

(** A world with no files in which [mkstemp] draws two names. *)
Definition world_two_names : World :=
  mkWorld ∅ ["/tmp/tmpk3x"; "/tmp/tmpq7a"] [] [] [] [].

(** The file set of the specification's ordering test: [x] and [z]
    without time stamp, [y] recorded on 2020-01-01, and the epoch origin
    of a machine on UTC. *)
Definition epoch_utc : datetime := mkdatetime 1970 1 1 0 0 0 0.

Definition files_x_y_z : FileList :=
  mkFileList ["y"; "x"; "z"]
    (<["x" := mkFileMeta None None None]>
     (<["y" := mkFileMeta (Some (mkdatetime 2020 1 1 0 0 0 0)) None None]>
     (<["z" := mkFileMeta None None None]> ∅))).

(** Two progress lines of the log, with their line ends. *)
Definition frame_line_20 : string := "frame=10 fps=25 q=2" +:+ LF_str.
Definition frame_line_8 : string := "frame=5" +:+ LF_str.

(** A process that writes nothing and ends with the given exit status. *)
Definition silent_process (rc : Z) : list string -> handle -> Process :=
  fun _ _ => mkProcess [] rc.

(** A file system in which every opening succeeds, or every one fails. *)
Definition always (b : bool) : string -> bool := fun _ => b.

(** ** Further vocabulary *)

(** A text without backslash. *)
Fixpoint no_backslash (s : string) : bool :=
  match s with
  | EmptyString => true
  | String c s' => negb (Ascii.eqb c "\") && no_backslash s'
  end.

(** The invariant of a file list: every path has its metadata entry. *)
Definition has_metadata (self : FileList) : Prop :=
  Forall (fun p => is_Some (meta self !! p)) (paths self).

(** [for path in new_paths: self.add_file(path)] *)
Fixpoint add_files
    (metacache_get : string -> (string -> result FileMeta) -> result FileMeta)
    (mediatools_get_meta : string -> result FileMeta)
    (self : FileList) (new_paths : list string) : result FileList :=
  match new_paths with
  | [] => Ok self
  | path :: rest =>
      and_then (add_file metacache_get mediatools_get_meta self path)
               (fun self' =>
                  add_files metacache_get mediatools_get_meta self' rest)
  end.

(** The lines of a report that begin with one of the four labels. *)
Definition recognised (line : string) : bool :=
  Py.startswith line "Recorded date" || Py.startswith line "Tagged date"
  || Py.startswith line "Duration" || Py.startswith line "Frame count".

(** A line whose label asks for a field that [info] does not hold yet. *)
Definition wanted (info : FileMeta) (line : string) : bool :=
  is_date_line line && negb (truthy_datetime (fm_datetime info))
  || Py.startswith line "Duration"
     && negb (truthy_int (fm_milliseconds info))
  || Py.startswith line "Frame count" && negb (truthy_int (fm_frames info)).

(** The integer a line gives for a label: that of its value, when the
    line begins with the label, has a value and [int] accepts it. *)
Definition labelled_int (int : string -> option Z) (label line : string)
  : option Z :=
  if Py.startswith line label then
    match value_of line with
    | Ok v => int v
    | Raise _ => None
    end
  else None.

(** The first of the integers that is not zero; zero when there are
    integers and all are zero. *)
Definition first_nonzero (ns : list Z) : option Z :=
  match List.find (fun n => negb (n =? 0)%Z) ns with
  | Some n => Some n
  | None => head ns
  end.

(** The count a field ends with, from the count it has and the integers
    the lines to come give. *)
Definition settle (cur : option Z) (ns : list Z) : option Z :=
  if truthy_int cur then cur
  else match first_nonzero ns with
       | Some n => Some n
       | None => cur
       end.

(** The progress lines the monitor renders: the reads that begin with
    'frame=' and are directly followed by an empty read. *)
Definition shown (rs : list string) : list string :=
  List.map fst
    (List.filter
       (fun lr => Py.startswith (fst lr) "frame="
                  && negb (truthy_str (Some (snd lr))))
       (List.combine rs (tail rs))).

(** What is printed for the lines [ls], each padded against the one
    rendered before it, [prev] for the first. *)
Fixpoint render_chain (prev : string) (ls : list string) : list string :=
  match ls with
  | [] => []
  | l :: rest => (rendered prev l +:+ CR_str) :: render_chain l rest
  end.

(** The reads as the monitor pairs them: the line it holds, if any, then
    the reads to come. *)
Definition pending_reads (st : Monitor) (rs : list string) : list string :=
  match test st with
  | Some l => l :: rs
  | None => rs
  end.

(** The line one turn of the monitor renders, if any: the line it holds,
    when that begins with 'frame=' and the read of the turn is empty. *)
Definition turn_shown (st : Monitor) (r : string) : list string :=
  match test st with
  | Some l =>
      if Py.startswith l "frame=" && negb (truthy_str (Some r)) then [l]
      else []
  | None => []
  end.

(** What a run of [do_concatenation] prints: with a log path the progress
    lines it renders and a final line feed, without one nothing. *)
Definition printed (logging : bool) (rs : list string) : list string :=
  if logging then render_chain EmptyString (shown rs) ++ [LF_str] else [].

(** Two progress lines that end differently: the first with its line feed
    alone, the second with two spaces before it. *)
Definition frame_line_plain : string := "frame=10" +:+ LF_str.
Definition frame_line_spaced : string := "frame=5  " +:+ LF_str.

(** * Properties *)

(** ** Strings and worlds *)

Lemma append_cons (c : ascii) (a b : string) :
  String c a +:+ b = String c (a +:+ b).
Proof. reflexivity. Qed.

Lemma append_empty_l (s : string) : EmptyString +:+ s = s.
Proof. reflexivity. Qed.

Lemma append_empty_r (s : string) : s +:+ EmptyString = s.
Proof.
  induction s as [|c s IH]; [reflexivity|].
  now rewrite append_cons, IH.
Qed.

Lemma append_assoc (a b c : string) : (a +:+ b) +:+ c = a +:+ (b +:+ c).
Proof.
  induction a as [|x a IH]; [reflexivity|].
  now rewrite !append_cons, IH.
Qed.

Lemma length_append (a b : string) :
  String.length (a +:+ b) = (String.length a + String.length b)%nat.
Proof.
  induction a as [|x a IH]; [reflexivity|].
  rewrite append_cons. simpl. now rewrite IH.
Qed.

Lemma length_spaces (n : nat) : String.length (Py.spaces n) = n.
Proof. induction n as [|n IH]; cbn; [reflexivity | now rewrite IH]. Qed.

Lemma with_files_same (w : World) : with_files (files w) w = w.
Proof. now destruct w. Qed.

Lemma with_files_twice (f g : gmap string string) (w : World) :
  with_files f (with_files g w) = with_files f w.
Proof. reflexivity. Qed.

(** ** The argument builder *)

Lemma input_pairs_length (l : list string) :
  length (input_pairs l) = (2 * length l)%nat.
Proof.
  unfold input_pairs. induction l as [|f l IH]; simpl in *; lia.
Qed.

Lemma input_pairs_lookup (l : list string) (i : nat) (f : string) :
  l !! i = Some f ->
  input_pairs l !! (2 * i)%nat = Some "-i"
  /\ input_pairs l !! (2 * i + 1)%nat = Some f.
Proof.
  unfold input_pairs. revert i.
  induction l as [|x l IH]; intros i Hi; [discriminate|].
  destruct i as [|i]; simpl in Hi.
  - injection Hi as ->. split; reflexivity.
  - apply IH in Hi as [H0 H1].
    replace (2 * S i)%nat with (S (S (2 * i))) by lia.
    split; simpl; [exact H0 | exact H1].
Qed.

Lemma for_each_print_to (t : string) (l : list string) :
  forall (w : World) (c : string),
    files w !! t = Some c ->
    for_each l (fun input_file =>
      let path := Py.replace input_file "\" "/" in
      print_to t ("file 'file:" +:+ path +:+ "'")) w
    = (Ok tt, with_files (<[t := c +:+ manifest_text l]> (files w)) w).
Proof.
  induction l as [|f l IH]; intros w c Hc; simpl.
  - unfold ret. rewrite append_empty_r, insert_id by exact Hc.
    now rewrite with_files_same.
  - unfold bind, print_to at 1. rewrite Hc. simpl.
    rewrite (IH _ (c +:+ manifest_line f +:+ String Py.LF EmptyString)).
    + simpl. rewrite with_files_twice, insert_insert_eq.
      unfold manifest_line. now rewrite !append_assoc.
    + simpl. apply lookup_insert_eq.
Qed.

Lemma first_unused_fresh (fs : gmap string string) (names : list string)
    (t : string) (rest : list string) :
  first_unused fs names = Some (t, rest) -> fs !! t = None.
Proof.
  induction names as [|n names IH]; simpl; [discriminate|].
  destruct (fs !! n) eqn:E; [exact IH|].
  intros [= <- _]. exact E.
Qed.

(** What [build_ffmpeg_params] does under the Demux strategy, once
    [mkstemp] has found the unused name [t]. *)
Lemma build_demux (self : Preset) (input_files : list string) (w : World)
    (t : string) (rest : list string) :
  concat_strategy self = CONCAT_DEMUX ->
  first_unused (files w) (tmp_names w) = Some (t, rest) ->
  build_ffmpeg_params self input_files w
  = (Ok (["-f"; "concat"; "-safe"; "0"; "-i"; t] ++ ffmpeg_params self),
     mkWorld (<[t := manifest_text input_files]> (files w)) rest
             (atexit_unlink w ++ [t]) (log_records w) (console w)
             (spawned w)).
Proof.
  intros Hs Ht. unfold build_ffmpeg_params. rewrite Hs.
  unfold bind at 1. unfold bind at 1. unfold mkstemp. rewrite Ht.
  unfold bind at 1. unfold atexit_register_unlink at 1.
  unfold bind at 1.
  rewrite (for_each_print_to t input_files _ EmptyString)
    by (simpl; apply lookup_insert_eq).
  unfold ret. simpl. now rewrite insert_insert_eq.
Qed.

(** C1. For every preset (those of the catalog among them) and every list
    of input paths, [build_ffmpeg_params] returns a strategy-specific
    prefix followed by the preset's encoder arguments, verbatim and in the
    same way for the three strategies.  Protocol: the token "-i" and one
    token "concat:" plus the paths joined with "|".  Filter: one "-i",
    path pair per input in input order, then "-filter_complex" and one
    graph token, then "-map" tokens for the two output labels.  Demux: the
    tokens "-f", "concat", "-safe", "0", "-i" and the manifest path.  The
    Demux strategy needs [mkstemp] to find an unused name [t]. *)
Theorem build_ffmpeg_params_shape (self : Preset) (input_files : list string)
    (w : World) (t : string) :
  (concat_strategy self = CONCAT_DEMUX -> fst (mkstemp w) = Ok t) ->
  exists (prefix : list string) (w' : World),
    build_ffmpeg_params self input_files w
    = (Ok (prefix ++ ffmpeg_params self), w')
    /\ match concat_strategy self with
       | CONCAT_PROTOCOL =>
           prefix = ["-i"; "concat:" +:+ Py.join "|" input_files]
       | CONCAT_FILTER =>
           exists inputs : list string,
             prefix = inputs
                      ++ ["-filter_complex";
                          filter_graph (length input_files)
                                       (complex_filters self);
                          "-map"; "[outv]"; "-map"; "[outa]"]
             /\ length inputs = (2 * length input_files)%nat
             /\ forall (i : nat) (f : string),
                  input_files !! i = Some f ->
                  inputs !! (2 * i)%nat = Some "-i"
                  /\ inputs !! (2 * i + 1)%nat = Some f
       | CONCAT_DEMUX =>
           prefix = ["-f"; "concat"; "-safe"; "0"; "-i"; t]
       end.
Proof.
  intros Hfresh.
  destruct (concat_strategy self) eqn:Hs.
  - exists ["-i"; "concat:" +:+ Py.join "|" input_files], w.
    split; [|reflexivity].
    unfold build_ffmpeg_params. now rewrite Hs.
  - exists (input_pairs input_files
            ++ ["-filter_complex";
                filter_graph (length input_files) (complex_filters self);
                "-map"; "[outv]"; "-map"; "[outa]"]), w.
    split.
    + unfold build_ffmpeg_params. rewrite Hs. unfold bind, ret. simpl.
      unfold input_pairs, filter_graph.
      now rewrite <- !app_assoc.
    + exists (input_pairs input_files).
      split; [reflexivity|].
      split; [apply input_pairs_length|].
      intros i f Hi. now apply input_pairs_lookup.
  - specialize (Hfresh eq_refl). unfold mkstemp in Hfresh.
    destruct (first_unused (files w) (tmp_names w)) as [[n rest]|] eqn:Hn;
      [|discriminate].
    simpl in Hfresh. injection Hfresh as ->.
    eexists _, _. split; [|reflexivity].
    now apply (build_demux self input_files w t rest).
Qed.

Lemma build_ffmpeg_params_shape_witness :
  exists (prefix : list string) (w' : World),
    build_ffmpeg_params preset_copy ["a.dv"; "b.dv"] world_two_names
    = (Ok (prefix ++ ["-c"; "copy"]), w')
    /\ prefix = ["-f"; "concat"; "-safe"; "0"; "-i"; "/tmp/tmpk3x"].
Proof.
  apply (build_ffmpeg_params_shape preset_copy ["a.dv"; "b.dv"]
           world_two_names "/tmp/tmpk3x").
  intros _. reflexivity.
Defined.

(** The three prefixes on two inputs, by evaluation. *)
Example build_protocol_two :
  fst (build_ffmpeg_params preset_copydv ["a.dv"; "b.dv"] world_two_names)
  = Ok ["-i"; "concat:a.dv|b.dv"; "-c"; "copy"].
Proof. reflexivity. Qed.

Example build_filter_two :
  fst (build_ffmpeg_params preset_1080p ["a.mp4"; "b.mp4"] world_two_names)
  = Ok ["-i"; "a.mp4"; "-i"; "b.mp4"; "-filter_complex";
        "concat=n=2:v=1:a=1[catv][outa];[catv]scale=-1:1080[outv]";
        "-map"; "[outv]"; "-map"; "[outa]";
        "-c:v"; "libx265"; "-crf"; "28"; "-preset"; "medium";
        "-c:a"; "flac"].
Proof. reflexivity. Qed.

(** The strategies of the catalog. *)
Example encode_presets_strategies :
  List.map (fun entry => (fst entry, concat_strategy (snd entry)))
           encode_presets
  = [("copy", CONCAT_DEMUX); ("copydv", CONCAT_PROTOCOL);
     ("1080p", CONCAT_FILTER); ("4k", CONCAT_FILTER)].
Proof. reflexivity. Qed.

(** ** The Demux manifest *)

Lemma no_newline_append (a b : string) :
  no_newline (a +:+ b) = no_newline a && no_newline b.
Proof.
  induction a as [|c a IH]; [reflexivity|].
  rewrite append_cons. simpl. rewrite IH. now rewrite andb_assoc.
Qed.

Lemma no_newline_replace (s : string) :
  no_newline s = true -> no_newline (Py.replace s "\" "/") = true.
Proof.
  induction s as [|c s IH]; simpl; [reflexivity|].
  intros [Hc Hs]%andb_prop. rewrite (IH Hs), andb_true_r.
  destruct (Ascii.eqb c "\"); [reflexivity | exact Hc].
Qed.

Lemma no_newline_manifest_line (p : string) :
  no_newline p = true -> no_newline (manifest_line p) = true.
Proof.
  intros Hp. unfold manifest_line.
  rewrite !no_newline_append, (no_newline_replace p Hp). reflexivity.
Qed.

(** [replace] changes the backslashes, and only them. *)
Lemma replace_get (s : string) (i : nat) :
  String.get i (Py.replace s "\" "/")
  = (fun c : ascii => if Ascii.eqb c "\" then "/"%char else c)
      <$> String.get i s.
Proof.
  revert i. induction s as [|c s IH]; intros i; [reflexivity|].
  destruct i as [|i]; simpl; [reflexivity | apply IH].
Qed.

Lemma replace_length (s : string) (old new : ascii) :
  String.length (Py.replace s old new) = String.length s.
Proof. induction s as [|c s IH]; simpl; [reflexivity | now rewrite IH]. Qed.

(** A line without line ends, written with a line feed, reads back as
    itself. *)
Lemma readlines_line (l rest : string) :
  no_newline l = true ->
  Py.readlines (l +:+ String Py.LF rest) = l :: Py.readlines rest.
Proof.
  unfold Py.readlines. induction l as [|c l IH]; intros Hl.
  - rewrite append_empty_l. simpl. destruct rest; reflexivity.
  - simpl in Hl. apply andb_prop in Hl as [Hc Hl].
    rewrite append_cons. simpl.
    apply negb_true_iff in Hc. rewrite Hc.
    now rewrite (IH Hl).
Qed.

Lemma readlines_manifest_text (input_files : list string) :
  Forall (fun p => no_newline p = true) input_files ->
  Py.readlines (manifest_text input_files)
  = List.map manifest_line input_files.
Proof.
  induction 1 as [|p l Hp _ IH]; [reflexivity|].
  cbn [manifest_text List.map].
  rewrite (append_cons Py.LF EmptyString), append_empty_l.
  rewrite readlines_line by now apply no_newline_manifest_line.
  now rewrite IH.
Qed.

(** C4 (as amended). For every list of input paths none of which contains
    a line feed or a carriage return, the Demux strategy writes a fresh
    manifest (no file bore its name before) whose text is one directive
    per input, in input order, each [file 'file:<path>'] with every
    backslash of the path replaced by a forward slash; reading the
    manifest back gives exactly those directive lines. *)
Theorem demux_manifest_roundtrip (self : Preset) (input_files : list string)
    (w : World) (t : string) :
  concat_strategy self = CONCAT_DEMUX ->
  fst (mkstemp w) = Ok t ->
  Forall (fun p => no_newline p = true) input_files ->
  exists content : string,
    files w !! t = None
    /\ files (snd (build_ffmpeg_params self input_files w)) !! t
       = Some content
    /\ Py.readlines content
       = List.map (fun p => "file 'file:" +:+ Py.replace p "\" "/" +:+ "'")
                  input_files
    /\ length (Py.readlines content) = length input_files.
Proof.
  intros Hs Ht Hnl. unfold mkstemp in Ht.
  destruct (first_unused (files w) (tmp_names w)) as [[n rest]|] eqn:Hn;
    [|discriminate].
  simpl in Ht. injection Ht as ->.
  exists (manifest_text input_files).
  rewrite (build_demux self input_files w t rest Hs Hn). simpl.
  split; [now apply first_unused_fresh in Hn|].
  split; [apply lookup_insert_eq|].
  rewrite readlines_manifest_text by exact Hnl.
  split; [reflexivity | apply length_map].
Qed.

Lemma demux_manifest_roundtrip_witness :
  exists content : string,
    files world_two_names !! "/tmp/tmpk3x" = None
    /\ files (snd (build_ffmpeg_params preset_copy
                     ["C:\clips\a.dv"; "b.dv"; "c.dv"] world_two_names))
         !! "/tmp/tmpk3x" = Some content
    /\ Py.readlines content
       = ["file 'file:C:/clips/a.dv'"; "file 'file:b.dv'"; "file 'file:c.dv'"]
    /\ length (Py.readlines content) = 3%nat.
Proof.
  apply (demux_manifest_roundtrip preset_copy
           ["C:\clips\a.dv"; "b.dv"; "c.dv"] world_two_names "/tmp/tmpk3x").
  - reflexivity.
  - reflexivity.
  - repeat constructor.
Defined.

(** C4 as stated fails: a path that contains a line feed is written as it
    is, and its directive reads back as two lines. *)
Lemma demux_manifest_line_feed_in_path :
  let p := "a" +:+ String Py.LF "b" in
  (Py.readlines <$>
     files (snd (build_ffmpeg_params preset_copy [p] world_two_names))
       !! "/tmp/tmpk3x")
  = Some ["file 'file:a"; "b'"]
  /\ ["file 'file:a"; "b'"] <> [manifest_line p].
Proof. split; [vm_compute; reflexivity | discriminate]. Qed.

(** ** The metadata parser *)

Lemma and_then_Ok {A B} (r : result A) (k : A -> result B) (b : B) :
  and_then r k = Ok b -> exists a, r = Ok a /\ k a = Ok b.
Proof. destruct r as [a|e]; simpl; [eauto | discriminate]. Qed.

Lemma startswith_head (line p : string) (a : ascii) :
  Py.startswith line (String a p) = true ->
  exists rest, line = String a rest.
Proof.
  unfold Py.startswith. destruct line as [|c line]; [discriminate|].
  cbn [String.prefix].
  destruct (ascii_dec a c) as [->|]; [eauto | discriminate].
Qed.

(** The four labels exclude one another. *)
Lemma labels_exclusive (line : string) :
  (Py.startswith line "Recorded date" = true ->
     Py.startswith line "Tagged date" = false
     /\ Py.startswith line "Duration" = false
     /\ Py.startswith line "Frame count" = false)
  /\ (Py.startswith line "Tagged date" = true ->
     Py.startswith line "Recorded date" = false
     /\ Py.startswith line "Duration" = false
     /\ Py.startswith line "Frame count" = false)
  /\ (Py.startswith line "Duration" = true ->
     Py.startswith line "Recorded date" = false
     /\ Py.startswith line "Tagged date" = false
     /\ Py.startswith line "Frame count" = false)
  /\ (Py.startswith line "Frame count" = true ->
     Py.startswith line "Recorded date" = false
     /\ Py.startswith line "Tagged date" = false
     /\ Py.startswith line "Duration" = false).
Proof.
  split; [|split; [|split]]; intros [rest ->]%startswith_head;
    repeat split.
Qed.

Section GetMetaProperties.

Variable strptime : string -> string -> option datetime.
Variable int : string -> option Z.

Lemma scan_recorded_date_Ok (info info' : FileMeta) (line : string) :
  scan_recorded_date strptime info line = Ok info' ->
  fm_milliseconds info' = fm_milliseconds info
  /\ fm_frames info' = fm_frames info
  /\ if Py.startswith line "Recorded date"
        && negb (truthy_datetime (fm_datetime info))
     then exists v d, value_of line = Ok v
                      /\ strptime v "%Y-%m-%d %H:%M:%S.000" = Some d
                      /\ fm_datetime info' = Some d
     else info' = info.
Proof.
  unfold scan_recorded_date, strptime_r.
  destruct (Py.startswith line "Recorded date"
            && negb (truthy_datetime (fm_datetime info))).
  - intros (v & Hv & H)%and_then_Ok.
    destruct (strptime v _) as [d|] eqn:Hd; [|discriminate].
    simpl in H. injection H as <-. simpl.
    split; [reflexivity|]. split; [reflexivity|]. exists v, d. auto.
  - intros [= <-]. auto.
Qed.

Lemma scan_tagged_date_Ok (info info' : FileMeta) (line : string) :
  scan_tagged_date strptime info line = Ok info' ->
  fm_milliseconds info' = fm_milliseconds info
  /\ fm_frames info' = fm_frames info
  /\ if Py.startswith line "Tagged date"
        && negb (truthy_datetime (fm_datetime info))
     then exists v d, value_of line = Ok v
                      /\ strptime v "%Z %Y-%m-%d %H:%M:%S" = Some d
                      /\ fm_datetime info' = Some d
     else info' = info.
Proof.
  unfold scan_tagged_date, strptime_r.
  destruct (Py.startswith line "Tagged date"
            && negb (truthy_datetime (fm_datetime info))).
  - intros (v & Hv & H)%and_then_Ok.
    destruct (strptime v _) as [d|] eqn:Hd; [|discriminate].
    simpl in H. injection H as <-. simpl.
    split; [reflexivity|]. split; [reflexivity|]. exists v, d. auto.
  - intros [= <-]. auto.
Qed.

Lemma scan_duration_Ok (info info' : FileMeta) (line : string) :
  scan_duration int info line = Ok info' ->
  fm_datetime info' = fm_datetime info
  /\ fm_frames info' = fm_frames info
  /\ (fm_milliseconds info' = fm_milliseconds info
      \/ Py.startswith line "Duration" = true
         /\ truthy_int (fm_milliseconds info) = false
         /\ exists v n, value_of line = Ok v /\ int v = Some n
                        /\ fm_milliseconds info' = Some n).
Proof.
  unfold scan_duration, int_r.
  destruct (Py.startswith line "Duration") eqn:Hl; simpl;
    [|intros [= <-]; auto].
  destruct (truthy_int (fm_milliseconds info)) eqn:Ht; simpl;
    [intros [= <-]; auto|].
  destruct (value_of line) as [v|e] eqn:Hv; simpl.
  - destruct (int v) as [n|] eqn:Hn; simpl.
    + intros [= <-]. simpl. split; [reflexivity|]. split; [reflexivity|].
      right. split; [reflexivity|]. split; [reflexivity|].
      exists v, n. auto.
    + intros [= <-]. auto.
  - destruct e; try discriminate. intros [= <-]. auto.
Qed.

Lemma scan_frame_count_Ok (info info' : FileMeta) (line : string) :
  scan_frame_count int info line = Ok info' ->
  fm_datetime info' = fm_datetime info
  /\ fm_milliseconds info' = fm_milliseconds info
  /\ (fm_frames info' = fm_frames info
      \/ Py.startswith line "Frame count" = true
         /\ truthy_int (fm_frames info) = false
         /\ exists v n, value_of line = Ok v /\ int v = Some n
                        /\ fm_frames info' = Some n).
Proof.
  unfold scan_frame_count, int_r.
  destruct (Py.startswith line "Frame count") eqn:Hl; simpl;
    [|intros [= <-]; auto].
  destruct (truthy_int (fm_frames info)) eqn:Ht; simpl;
    [intros [= <-]; auto|].
  intros (v & Hv & H)%and_then_Ok.
  destruct (int v) as [n|] eqn:Hn; [|discriminate].
  simpl in H. injection H as <-. simpl.
  split; [reflexivity|]. split; [reflexivity|]. right.
  split; [reflexivity|]. split; [reflexivity|]. exists v, n. auto.
Qed.

(** What one line does to the time stamp. *)
Lemma scan_line_datetime (info info' : FileMeta) (line : string) :
  scan_line strptime int info line = Ok info' ->
  match fm_datetime info with
  | Some d => fm_datetime info' = Some d
  | None =>
      if is_date_line line
      then exists d, date_of_line strptime line = Ok d
                     /\ fm_datetime info' = Some d
      else fm_datetime info' = None
  end.
Proof.
  unfold scan_line.
  intros (i1 & H1 & H)%and_then_Ok.
  apply and_then_Ok in H as (i2 & H2 & H).
  apply and_then_Ok in H as (i3 & H3 & H4).
  apply scan_recorded_date_Ok in H1 as (_ & _ & H1).
  apply scan_tagged_date_Ok in H2 as (_ & _ & H2).
  apply scan_duration_Ok in H3 as (H3 & _).
  apply scan_frame_count_Ok in H4 as (H4 & _).
  rewrite H4, H3. clear H3 H4 i3 info'.
  destruct (labels_exclusive line) as (HR & HT & _).
  unfold is_date_line, date_of_line, date_format.
  destruct (fm_datetime info) as [d|] eqn:Hd; simpl in H1.
  - rewrite andb_false_r in H1. subst i1. rewrite Hd in H2. simpl in H2.
    rewrite andb_false_r in H2. now subst i2.
  - rewrite andb_true_r in H1.
    destruct (Py.startswith line "Recorded date") eqn:ER.
    + destruct H1 as (v & d & Hv & Hp & Hi1).
      rewrite Hi1 in H2. simpl in H2. rewrite andb_false_r in H2. subst i2.
      simpl. exists d. rewrite Hv. simpl. unfold strptime_r. rewrite Hp.
      auto.
    + subst i1. rewrite Hd in H2. simpl in H2. rewrite andb_true_r in H2.
      destruct (Py.startswith line "Tagged date") eqn:ET; simpl.
      * destruct H2 as (v & d & Hv & Hp & Hi2).
        exists d. rewrite Hv. simpl. unfold strptime_r. rewrite Hp. auto.
      * now subst i2.
Qed.

Lemma scan_lines_datetime_kept (lines : list string) :
  forall (info info' : FileMeta) (d : datetime),
    fm_datetime info = Some d ->
    scan_lines strptime int info lines = Ok info' ->
    fm_datetime info' = Some d.
Proof.
  induction lines as [|line rest IH]; intros info info' d Hd; simpl.
  - now intros [= <-].
  - intros (i1 & H1 & H2)%and_then_Ok.
    apply scan_line_datetime in H1. rewrite Hd in H1.
    exact (IH i1 info' d H1 H2).
Qed.

Lemma scan_lines_first_date (lines : list string) :
  forall (info info' : FileMeta),
    fm_datetime info = None ->
    scan_lines strptime int info lines = Ok info' ->
    first_date strptime lines = Ok (fm_datetime info').
Proof.
  unfold first_date.
  induction lines as [|line rest IH]; intros info info' Hd; simpl.
  - intros [= <-]. now rewrite Hd.
  - intros (i1 & H1 & H2)%and_then_Ok.
    apply scan_line_datetime in H1. rewrite Hd in H1.
    destruct (is_date_line line).
    + destruct H1 as (d & Hl & Hi1). rewrite Hl. simpl.
      now rewrite (scan_lines_datetime_kept rest i1 info' d Hi1 H2).
    + exact (IH i1 info' H1 H2).
Qed.

(** C3 (as amended). For every metadata report that [get_meta] parses:
    the [datetime] field is taken from the first line, in report order,
    that begins with 'Recorded date' or with 'Tagged date', read with
    the format of its label; so a Recorded date line wins over the
    Tagged date lines that follow it, and a Tagged date line sets the
    field only when no earlier line has set it.  Once set, [datetime] is
    never overwritten by later lines. *)
Theorem get_meta_datetime_first_date_line :
  (forall (output : string) (info : FileMeta),
      parse_report strptime int output = Ok info ->
      first_date strptime (Py.splitlines output) = Ok (fm_datetime info))
  /\ (forall (info info' : FileMeta) (lines : list string) (d : datetime),
        fm_datetime info = Some d ->
        scan_lines strptime int info lines = Ok info' ->
        fm_datetime info' = Some d).
Proof.
  split.
  - intros output info H.
    now apply (scan_lines_first_date _ FileMeta_new info).
  - intros info info' lines d. apply scan_lines_datetime_kept.
Qed.

(** What one line does to the duration and to the frame count. *)
Lemma scan_line_counts (info info' : FileMeta) (line : string) :
  scan_line strptime int info line = Ok info' ->
  (fm_milliseconds info' = fm_milliseconds info
   \/ Py.startswith line "Duration" = true
      /\ truthy_int (fm_milliseconds info) = false
      /\ exists v n, value_of line = Ok v /\ int v = Some n
                     /\ fm_milliseconds info' = Some n)
  /\ (fm_frames info' = fm_frames info
      \/ Py.startswith line "Frame count" = true
         /\ truthy_int (fm_frames info) = false
         /\ exists v n, value_of line = Ok v /\ int v = Some n
                        /\ fm_frames info' = Some n).
Proof.
  unfold scan_line.
  intros (i1 & H1 & H)%and_then_Ok.
  apply and_then_Ok in H as (i2 & H2 & H).
  apply and_then_Ok in H as (i3 & H3 & H4).
  apply scan_recorded_date_Ok in H1 as (M1 & F1 & _).
  apply scan_tagged_date_Ok in H2 as (M2 & F2 & _).
  apply scan_duration_Ok in H3 as (_ & F3 & M3).
  apply scan_frame_count_Ok in H4 as (_ & M4 & F4).
  rewrite M4, F3, F2, F1 in *. rewrite M2, M1 in M3.
  split; [exact M3 | exact F4].
Qed.

(** A duration or a frame count that is set and not zero is kept. *)
Lemma scan_lines_counts_kept (lines : list string) :
  forall (info info' : FileMeta),
    scan_lines strptime int info lines = Ok info' ->
    (truthy_int (fm_milliseconds info) = true ->
     fm_milliseconds info' = fm_milliseconds info)
    /\ (truthy_int (fm_frames info) = true ->
        fm_frames info' = fm_frames info).
Proof.
  induction lines as [|line rest IH]; intros info info'; simpl.
  - intros [= <-]. auto.
  - intros (i1 & H1 & H2)%and_then_Ok.
    apply scan_line_counts in H1 as [HM HF].
    apply IH in H2 as [IM IF]. split; intros Ht.
    + destruct HM as [HM|(_ & Hf & _)]; [|congruence].
      rewrite <- HM. apply IM. now rewrite HM.
    + destruct HF as [HF|(_ & Hf & _)]; [|congruence].
      rewrite <- HF. apply IF. now rewrite HF.
Qed.

Lemma line_well_formed_other (line : string) :
  is_date_line line = false ->
  Py.startswith line "Duration" = false ->
  Py.startswith line "Frame count" = false ->
  line_well_formed strptime int line.
Proof.
  unfold is_date_line. intros [HR HT]%orb_false_iff HD HF.
  repeat split; congruence.
Qed.

Lemma line_well_formed_duration (line v : string) :
  Py.startswith line "Duration" = true ->
  value_of line = Ok v ->
  line_well_formed strptime int line.
Proof.
  intros HD Hv.
  destruct (labels_exclusive line) as (_ & _ & HX & _).
  destruct (HX HD) as (HR & HT & HF).
  repeat split; try congruence. intros _. now exists v.
Qed.

Lemma scan_line_total (info : FileMeta) (line : string) :
  line_well_formed strptime int line ->
  exists info', scan_line strptime int info line = Ok info'.
Proof.
  intros (WR & WT & WD & WF). unfold scan_line.
  assert (exists i1, scan_recorded_date strptime info line = Ok i1)
    as [i1 ->].
  { unfold scan_recorded_date.
    destruct (Py.startswith line "Recorded date") eqn:E; simpl; [|eauto].
    destruct (negb _); [|eauto].
    destruct (WR eq_refl) as (v & d & -> & Hd). simpl.
    unfold strptime_r. rewrite Hd. simpl. eauto. }
  simpl.
  assert (exists i2, scan_tagged_date strptime i1 line = Ok i2)
    as [i2 ->].
  { unfold scan_tagged_date.
    destruct (Py.startswith line "Tagged date") eqn:E; simpl; [|eauto].
    destruct (negb _); [|eauto].
    destruct (WT eq_refl) as (v & d & -> & Hd). simpl.
    unfold strptime_r. rewrite Hd. simpl. eauto. }
  simpl.
  assert (exists i3, scan_duration int i2 line = Ok i3) as [i3 ->].
  { unfold scan_duration.
    destruct (Py.startswith line "Duration") eqn:E; simpl; [|eauto].
    destruct (negb _); [|eauto].
    destruct (WD eq_refl) as (v & ->). simpl.
    unfold int_r. destruct (int v); simpl; eauto. }
  simpl.
  unfold scan_frame_count.
  destruct (Py.startswith line "Frame count") eqn:E; simpl; [|eauto].
  destruct (negb _); [|eauto].
  destruct (WF eq_refl) as (v & n & -> & Hn). simpl.
  unfold int_r. rewrite Hn. simpl. eauto.
Qed.

Lemma scan_lines_total (lines : list string) :
  Forall (line_well_formed strptime int) lines ->
  forall info : FileMeta,
  exists info',
    scan_lines strptime int info lines = Ok info'
    /\ (Forall (fun l => is_date_line l = false) lines ->
        fm_datetime info' = fm_datetime info)
    /\ (Forall (duration_miss int) lines ->
        fm_milliseconds info' = fm_milliseconds info)
    /\ (Forall (fun l => Py.startswith l "Frame count" = false) lines ->
        fm_frames info' = fm_frames info).
Proof.
  induction 1 as [|line rest Hwf _ IH]; intros info; simpl.
  - exists info. auto.
  - destruct (scan_line_total info line Hwf) as [i1 H1]. rewrite H1. simpl.
    destruct (IH i1) as (info' & H2 & ID & IM & IF).
    exists info'. split; [exact H2|].
    pose proof (scan_line_datetime _ _ _ H1) as HD.
    destruct (scan_line_counts _ _ _ H1) as [HM HF].
    split; [|split].
    + intros [Hl Hr]%Forall_cons. rewrite (ID Hr).
      rewrite Hl in HD. destruct (fm_datetime info); exact HD.
    + intros [Hl Hr]%Forall_cons. rewrite (IM Hr).
      destruct HM as [HM|(Hs & _ & v & n & Hv & Hn & _)]; [exact HM|].
      rewrite (Hl Hs v Hv) in Hn. discriminate.
    + intros [Hl Hr]%Forall_cons. rewrite (IF Hr).
      destruct HF as [HF|(Hs & _)]; [exact HF | congruence].
Qed.

(** C9 (as amended). For every metadata report whose Recorded date,
    Tagged date and Frame count lines carry values their parsers accept
    and whose Duration lines have their separator, [get_meta] raises no
    exception; a field whose line is absent is left unset, and Duration
    lines whose value is not a valid integer are passed over, leaving
    [milliseconds] unset. *)
Theorem get_meta_parse_miss (output : string) :
  Forall (line_well_formed strptime int) (Py.splitlines output) ->
  exists info : FileMeta,
    parse_report strptime int output = Ok info
    /\ (Forall (fun l => is_date_line l = false) (Py.splitlines output) ->
        fm_datetime info = None)
    /\ (Forall (duration_miss int) (Py.splitlines output) ->
        fm_milliseconds info = None)
    /\ (Forall (fun l => Py.startswith l "Frame count" = false)
               (Py.splitlines output) ->
        fm_frames info = None).
Proof.
  intros Hwf. unfold parse_report.
  exact (scan_lines_total _ Hwf FileMeta_new).
Qed.

End GetMetaProperties.

Lemma get_meta_datetime_first_date_line_witness :
  first_date Reference.strptime
    (Py.splitlines (report ["Recorded date: 2021-05-01 12:00:00.000";
                            "Tagged date: UTC 2021-06-01 12:00:00"]))
  = Ok (Some (mkdatetime 2021 5 1 12 0 0 0)).
Proof.
  apply (proj1 (get_meta_datetime_first_date_line
                  Reference.strptime Reference.int)
           (report ["Recorded date: 2021-05-01 12:00:00.000";
                    "Tagged date: UTC 2021-06-01 12:00:00"])
           (mkFileMeta (Some (mkdatetime 2021 5 1 12 0 0 0)) None None)).
  vm_compute. reflexivity.
Defined.

(** The three reports of the specification's parsing test. *)
Example get_meta_recorded_only :
  parse_report Reference.strptime Reference.int
    (report ["Recorded date: 2021-05-01 12:00:00.000"])
  = Ok (mkFileMeta (Some (mkdatetime 2021 5 1 12 0 0 0)) None None).
Proof. vm_compute. reflexivity. Qed.

Example get_meta_tagged_only :
  parse_report Reference.strptime Reference.int
    (report ["Tagged date: UTC 2021-05-01 12:00:00"])
  = Ok (mkFileMeta (Some (mkdatetime 2021 5 1 12 0 0 0)) None None).
Proof. vm_compute. reflexivity. Qed.

Example get_meta_duration :
  parse_report Reference.strptime Reference.int (report ["Duration: 12345"])
  = Ok (mkFileMeta None (Some 12345%Z) None)
  /\ parse_report Reference.strptime Reference.int
       (report ["Duration: not-a-number"])
     = Ok (mkFileMeta None None None).
Proof. split; vm_compute; reflexivity. Qed.

(** C3 as stated fails: with the Tagged date line ahead of the Recorded
    date line, [datetime] is the Tagged date and not the Recorded one. *)
Lemma get_meta_tagged_date_ahead :
  parse_report Reference.strptime Reference.int
    (report ["Tagged date: UTC 2021-05-01 12:00:00";
             "Recorded date: 2021-06-01 12:00:00.000"])
  = Ok (mkFileMeta (Some (mkdatetime 2021 5 1 12 0 0 0)) None None)
  /\ date_of_line Reference.strptime "Recorded date: 2021-06-01 12:00:00.000"
     = Ok (mkdatetime 2021 6 1 12 0 0 0).
Proof. split; vm_compute; reflexivity. Qed.

(** C8: where the code leaves the claim.  A frame count, or a duration,
    that an earlier line set to zero is replaced by a later line of the
    same label: the guards test the truth value of the field, and zero is
    false as [None] is. *)
Theorem get_meta_zero_overwritten :
  parse_report Reference.strptime Reference.int
    (report ["Frame count: 0"; "Frame count: 7"])
  = Ok (mkFileMeta None None (Some 7%Z))
  /\ parse_report Reference.strptime Reference.int
       (report ["Duration: 0"; "Duration: 5"])
     = Ok (mkFileMeta None (Some 5%Z) None)
  /\ parse_report Reference.strptime Reference.int
       (report ["Frame count: 3"; "Frame count: 7"])
     = Ok (mkFileMeta None None (Some 3%Z)).
Proof. repeat split; vm_compute; reflexivity. Qed.

Lemma get_meta_parse_miss_witness :
  exists info : FileMeta,
    parse_report Reference.strptime Reference.int
      (report ["General"; "Duration: not-a-number"; "Format: DV"]) = Ok info
    /\ fm_datetime info = None
    /\ fm_milliseconds info = None
    /\ fm_frames info = None.
Proof.
  assert (Py.splitlines
            (report ["General"; "Duration: not-a-number"; "Format: DV"])
          = ["General"; "Duration: not-a-number"; "Format: DV"]) as Hlines
    by (vm_compute; reflexivity).
  destruct (get_meta_parse_miss Reference.strptime Reference.int
              (report ["General"; "Duration: not-a-number"; "Format: DV"]))
    as (info & Hp & Hd & Hm & Hf).
  - rewrite Hlines.
    constructor; [apply line_well_formed_other; reflexivity|].
    constructor;
      [apply (line_well_formed_duration _ _ _ "not-a-number"); reflexivity|].
    constructor; [apply line_well_formed_other; reflexivity|].
    constructor.
  - rewrite Hlines in Hd, Hm, Hf.
    exists info. split; [exact Hp|].
    split; [apply Hd; repeat (constructor; [reflexivity|]); constructor|].
    split; [|apply Hf; repeat (constructor; [reflexivity|]); constructor].
    apply Hm.
    constructor; [intros H; discriminate H|].
    constructor;
      [intros _ v Hv; vm_compute in Hv; injection Hv as <-; reflexivity|].
    constructor; [intros H; discriminate H|].
    constructor.
Defined.

(** C9 as stated fails: a malformed value on a Frame count line, or on a
    date line, is raised out of [get_meta]. *)
Lemma get_meta_malformed_raises :
  parse_report Reference.strptime Reference.int
    (report ["Frame count: abc"]) = Raise ValueError
  /\ parse_report Reference.strptime Reference.int
       (report ["Recorded date: yesterday"]) = Raise ValueError
  /\ parse_report Reference.strptime Reference.int
       (report ["Tagged date: 2021-05-01"]) = Raise ValueError.
Proof. repeat split; vm_compute; reflexivity. Qed.

(** ** Ordering by time stamp *)

Lemma lex_ltb_asym (a : list Z) :
  forall b, lex_ltb a b = true -> lex_ltb b a = false.
Proof.
  induction a as [|x a IH]; intros [|y b]; simpl; try reflexivity;
    try discriminate.
  intros H. apply orb_true_iff in H as [H|H].
  - apply Z.ltb_lt in H.
    apply orb_false_iff. split; [apply Z.ltb_ge; lia|].
    apply andb_false_iff. left. apply Z.eqb_neq. lia.
  - apply andb_true_iff in H as [E H]. apply Z.eqb_eq in E. subst y.
    rewrite Z.ltb_irrefl, Z.eqb_refl. simpl. now apply IH.
Qed.

Lemma lex_ltb_cotrans (a : list Z) :
  forall b c, lex_ltb a c = true -> lex_ltb a b = true \/ lex_ltb b c = true.
Proof.
  induction a as [|x a IH]; intros [|y b] [|z c]; simpl; auto;
    try discriminate.
  intros H. apply orb_true_iff in H as [H|H].
  - apply Z.ltb_lt in H.
    destruct (Z.ltb_spec x y) as [Hxy|Hxy]; [now left|].
    right. apply orb_true_iff. left. apply Z.ltb_lt. lia.
  - apply andb_true_iff in H as [E H]. apply Z.eqb_eq in E. subst z.
    destruct (Z.ltb_spec x y) as [Hxy|Hxy]; [now left|].
    destruct (Z.ltb_spec y x) as [Hyx|Hyx]; [now right|].
    assert (x = y) as -> by lia. rewrite Z.eqb_refl. simpl.
    apply (IH b c H).
Qed.

Lemma dt_ltb_asym (a b : datetime) : dt_ltb a b = true -> dt_ltb b a = false.
Proof. apply lex_ltb_asym. Qed.

Lemma dt_ltb_cotrans (a b c : datetime) :
  dt_ltb a c = true -> dt_ltb a b = true \/ dt_ltb b c = true.
Proof. apply lex_ltb_cotrans. Qed.

Section SortedProperties.
Context {K A : Type} (ltb : K -> K -> bool).
Hypothesis ltb_asym : forall a b, ltb a b = true -> ltb b a = false.
Hypothesis ltb_cotrans :
  forall a b c, ltb a c = true -> ltb a b = true \/ ltb b c = true.

Lemma not_after_trans (x y z : K * A) :
  not_after ltb x y -> not_after ltb y z -> not_after ltb x z.
Proof.
  unfold not_after. intros Hxy Hyz.
  destruct (ltb (fst z) (fst x)) eqn:E; [|reflexivity].
  destruct (ltb_cotrans _ (fst y) _ E); congruence.
Qed.

Lemma insert_sorted_perm (x : K * A) (l : list (K * A)) :
  Permutation (insert_sorted ltb x l) (x :: l).
Proof.
  induction l as [|y l IH]; simpl; [reflexivity|].
  destruct (ltb (fst y) (fst x)); [|reflexivity].
  rewrite IH. apply perm_swap.
Qed.

Lemma sort_keyed_perm (l : list (K * A)) : Permutation (sort_keyed ltb l) l.
Proof.
  induction l as [|x l IH]; simpl; [reflexivity|].
  rewrite insert_sorted_perm. now rewrite IH.
Qed.

Lemma insert_sorted_sorted (x : K * A) (l : list (K * A)) :
  StronglySorted (not_after ltb) l ->
  StronglySorted (not_after ltb) (insert_sorted ltb x l).
Proof.
  induction 1 as [|y l Hl IH Hy]; simpl.
  - repeat constructor.
  - destruct (ltb (fst y) (fst x)) eqn:E.
    + constructor; [exact IH|].
      rewrite insert_sorted_perm. constructor; [|exact Hy].
      unfold not_after. now apply ltb_asym.
    + constructor; [now constructor|].
      constructor; [exact E|].
      eapply Forall_impl; [exact Hy|].
      intros z Hz. now apply (not_after_trans x y z).
Qed.

Lemma sort_keyed_sorted (l : list (K * A)) :
  StronglySorted (not_after ltb) (sort_keyed ltb l).
Proof.
  induction l as [|x l IH]; simpl; [constructor|].
  now apply insert_sorted_sorted.
Qed.

Lemma insert_sorted_stable (k : K) (x : K * A) (l : list (K * A)) :
  List.filter (tied ltb k) (insert_sorted ltb x l)
  = List.filter (tied ltb k) (x :: l).
Proof.
  induction l as [|y l IH]; [reflexivity|].
  cbn [insert_sorted]. destruct (ltb (fst y) (fst x)) eqn:E; [|reflexivity].
  cbn [List.filter] in *. rewrite IH.
  destruct (tied ltb k y) eqn:Ty, (tied ltb k x) eqn:Tx; try reflexivity.
  unfold tied in Ty, Tx.
  apply andb_true_iff in Ty as [_ Ty]. apply andb_true_iff in Tx as [Tx _].
  apply negb_true_iff in Ty, Tx.
  destruct (ltb_cotrans _ k _ E); congruence.
Qed.

Lemma sort_keyed_stable (k : K) (l : list (K * A)) :
  List.filter (tied ltb k) (sort_keyed ltb l) = List.filter (tied ltb k) l.
Proof.
  induction l as [|x l IH]; [reflexivity|].
  cbn [sort_keyed]. rewrite insert_sorted_stable.
  cbn [List.filter]. now rewrite IH.
Qed.

Variable key : A -> K.

Lemma combine_keys_snd (l : list A) :
  List.map snd (List.combine (List.map key l) l) = l.
Proof. induction l as [|x l IH]; simpl; [reflexivity | now rewrite IH]. Qed.

Lemma combine_keys_keyed (l : list A) :
  Forall (fun kp => fst kp = key (snd kp)) (List.combine (List.map key l) l).
Proof. induction l as [|x l IH]; simpl; constructor; auto. Qed.

Lemma sorted_with_keys_perm (l : list A) :
  Permutation (sorted_with_keys ltb (List.map key l) l) l.
Proof.
  unfold sorted_with_keys.
  rewrite sort_keyed_perm. now rewrite combine_keys_snd.
Qed.

Lemma sorted_map_snd (l : list (K * A)) :
  Forall (fun kp => fst kp = key (snd kp)) l ->
  StronglySorted (not_after ltb) l ->
  StronglySorted (fun a b => ltb (key b) (key a) = false) (List.map snd l).
Proof.
  intros Hk Hs. induction Hs as [|y l Hl IH Hy]; simpl; [constructor|].
  apply Forall_cons in Hk as [Ky Kl].
  constructor; [now apply IH|].
  apply Forall_map.
  apply Forall_forall. intros z Hz.
  pose proof (proj1 (Forall_forall _ _) Hy z Hz) as H1.
  pose proof (proj1 (Forall_forall _ _) Kl z Hz) as H2.
  unfold not_after in H1. now rewrite Ky, H2 in H1.
Qed.

Lemma sorted_with_keys_sorted (l : list A) :
  StronglySorted (fun a b => ltb (key b) (key a) = false)
                 (sorted_with_keys ltb (List.map key l) l).
Proof.
  unfold sorted_with_keys. apply sorted_map_snd.
  - assert (Permutation (List.combine (List.map key l) l)
                        (sort_keyed ltb (List.combine (List.map key l) l)))
      as HP by (symmetry; apply sort_keyed_perm).
    rewrite <- HP. apply combine_keys_keyed.
  - apply sort_keyed_sorted.
Qed.

End SortedProperties.

Lemma StronglySorted_lookup {A} (R : A -> A -> Prop) (l : list A) :
  StronglySorted R l ->
  forall (i j : nat) (x y : A),
    l !! i = Some x -> l !! j = Some y -> (i < j)%nat -> R x y.
Proof.
  induction 1 as [|a l Hl IH Ha]; intros i j x y Hi Hj Hij; [discriminate|].
  destruct j as [|j]; [lia|]. simpl in Hj.
  destruct i as [|i]; simpl in Hi.
  - injection Hi as <-. exact (Forall_lookup_1 _ _ _ _ Ha Hj).
  - apply (IH i j); auto. lia.
Qed.

Lemma with_log_records_same (w : World) :
  with_log_records (log_records w ++ []) w = w.
Proof. rewrite app_nil_r. now destruct w. Qed.

Section SortByDatetime.

Variable fromtimestamp_0 : datetime.
Variable self : FileList.

Lemma map_M_get_sort_datetime (l : list string) :
  Forall (fun p => is_Some (meta self !! p)) l ->
  forall w : World,
    map_M (_get_sort_datetime fromtimestamp_0 self) l w
    = (Ok (List.map (sort_key fromtimestamp_0 self) l),
       with_log_records
         (log_records w
          ++ List.map warning_for (List.filter (unset_datetime self) l)) w).
Proof.
  induction 1 as [|p l [m Hm] _ IH]; intros w.
  - simpl. unfold ret. now rewrite with_log_records_same.
  - cbn [map_M List.map List.filter].
    unfold bind at 1. unfold _get_sort_datetime at 1.
    unfold sort_key at 1, unset_datetime at 1. rewrite Hm.
    destruct (fm_datetime m) as [d|]; simpl.
    + unfold ret at 1. unfold bind. rewrite IH. reflexivity.
    + unfold bind, log, ret at 1. rewrite IH. unfold ret. simpl.
      unfold with_log_records. simpl. now rewrite <- app_assoc.
Qed.

(** C7. [sort_by_datetime] reorders the paths ascending by the time
    stamp of their metadata, a path without time stamp counting as the
    epoch origin: the result is a rearrangement of the paths in which no
    path stands before one with a smaller key, so every path without
    time stamp stands ahead of every path whose time stamp is later than
    the epoch origin; and one warning naming the path is logged for each
    path without time stamp.  Every path has its metadata entry, as the
    file list maintains. *)
Theorem sort_by_datetime_ascending (w : World) :
  Forall (fun p => is_Some (meta self !! p)) (paths self) ->
  exists out : list string,
    sort_by_datetime fromtimestamp_0 self w
    = (Ok (mkFileList out (meta self)),
       with_log_records
         (log_records w
          ++ List.map warning_for
               (List.filter (unset_datetime self) (paths self))) w)
    /\ Permutation out (paths self)
    /\ StronglySorted
         (fun p q => dt_ltb (sort_key fromtimestamp_0 self q)
                            (sort_key fromtimestamp_0 self p) = false) out
    /\ forall (i j : nat) (x y : string) (m : FileMeta) (d : datetime),
         out !! i = Some x -> out !! j = Some y ->
         unset_datetime self x = true ->
         meta self !! y = Some m -> fm_datetime m = Some d ->
         dt_ltb fromtimestamp_0 d = true ->
         (i < j)%nat.
Proof.
  intros Hmeta.
  exists (sorted_with_keys dt_ltb
            (List.map (sort_key fromtimestamp_0 self) (paths self))
            (paths self)).
  assert (StronglySorted
            (fun p q => dt_ltb (sort_key fromtimestamp_0 self q)
                               (sort_key fromtimestamp_0 self p) = false)
            (sorted_with_keys dt_ltb
               (List.map (sort_key fromtimestamp_0 self) (paths self))
               (paths self))) as Hsorted
    by (apply sorted_with_keys_sorted;
        [apply dt_ltb_asym | apply dt_ltb_cotrans]).
  split; [|split; [|split]].
  - unfold sort_by_datetime, bind.
    now rewrite (map_M_get_sort_datetime _ Hmeta).
  - apply sorted_with_keys_perm.
  - exact Hsorted.
  - intros i j x y m d Hi Hj Hx Hy Hd Hlt.
    assert (sort_key fromtimestamp_0 self x = fromtimestamp_0) as Kx.
    { unfold sort_key. unfold unset_datetime in Hx.
      destruct (meta self !! x) as [mx|]; [|reflexivity].
      now destruct (fm_datetime mx). }
    assert (sort_key fromtimestamp_0 self y = d) as Ky.
    { unfold sort_key. now rewrite Hy, Hd. }
    destruct (Nat.lt_trichotomy i j) as [Hij|[Hij|Hij]]; [exact Hij| |].
    + subst j. rewrite Hi in Hj. injection Hj as ->.
      unfold unset_datetime in Hx. rewrite Hy, Hd in Hx. discriminate.
    + pose proof (StronglySorted_lookup _ _ Hsorted j i y x Hj Hi Hij) as H.
      simpl in H. rewrite Kx, Ky in H. congruence.
Qed.

End SortByDatetime.

Lemma sort_by_datetime_ascending_witness :
  exists out : list string,
    sort_by_datetime epoch_utc files_x_y_z world_two_names
    = (Ok (mkFileList out (meta files_x_y_z)),
       with_log_records
         [(WARNING, "No recorded date for x; inserting at beginning");
          (WARNING, "No recorded date for z; inserting at beginning")]
         world_two_names)
    /\ out = ["x"; "z"; "y"].
Proof.
  destruct (sort_by_datetime_ascending epoch_utc files_x_y_z world_two_names)
    as (out & Hrun & _).
  - repeat (constructor; [vm_compute; eauto|]). constructor.
  - exists out. split; [exact Hrun|].
    assert (fst (sort_by_datetime epoch_utc files_x_y_z world_two_names)
            = Ok (mkFileList ["x"; "z"; "y"] (meta files_x_y_z))) as E
      by (vm_compute; reflexivity).
    rewrite Hrun in E. simpl in E. now injection E.
Defined.

(** ** The monitoring loop *)

Lemma with_console_same (w : World) : with_console (console w ++ []) w = w.
Proof. rewrite app_nil_r. now destruct w. Qed.

Lemma truthy_str_Some (r : string) :
  truthy_str (Some r) = false <-> r = EmptyString.
Proof. destruct r; simpl; split; congruence. Qed.

(** A turn in which the log has nothing new and the line read in the turn
    before is a progress line: the line is rendered and remembered. *)
Lemma monitor_turn_render (st : Monitor) (line : string) (w : World) :
  test st = Some line ->
  Py.startswith line "frame=" = true ->
  monitor_turn st EmptyString w
  = (Ok (mkMonitor (Some EmptyString) line),
     with_console (console w ++ [rendered (prev_line st) line +:+ CR_str]) w).
Proof.
  intros Ht Hf.
  assert (truthy_str (Some line) = true) as Hl
    by (apply startswith_head in Hf as [rest ->]; reflexivity).
  unfold monitor_turn. rewrite Ht.
  change (truthy_str (Some EmptyString)) with false. cbv iota.
  rewrite Hl. change (default EmptyString (Some line)) with line.
  rewrite Hf. reflexivity.
Qed.

(** A turn in which the log has a new line: nothing is rendered. *)
Lemma monitor_turn_new_line (st : Monitor) (r : string) (w : World) :
  r <> EmptyString ->
  monitor_turn st r w = (Ok (mkMonitor (Some r) (prev_line st)), w).
Proof.
  intros Hr. unfold monitor_turn.
  destruct (truthy_str (Some r)) eqn:E; [reflexivity|].
  now apply truthy_str_Some in E.
Qed.

(** The loop only returns, and only writes to the console. *)
Lemma monitor_turn_console (st : Monitor) (r : string) (w : World) :
  exists (st' : Monitor) (outs : list string),
    monitor_turn st r w = (Ok st', with_console (console w ++ outs) w).
Proof.
  unfold monitor_turn.
  destruct (truthy_str (Some r)).
  - exists (mkMonitor (Some r) (prev_line st)), [].
    unfold ret. now rewrite with_console_same.
  - destruct (truthy_str (test st)).
    + destruct (Py.startswith (default EmptyString (test st)) "frame=").
      * eexists _, [_]. reflexivity.
      * eexists _, []. unfold bind, ret, sleep_half.
        now rewrite with_console_same.
    + eexists _, []. unfold bind, ret, sleep_half.
      now rewrite with_console_same.
Qed.

Lemma monitor_loop_console (rs : list string) :
  forall (st : Monitor) (w : World),
  exists (st' : Monitor) (outs : list string),
    monitor_loop st rs w = (Ok st', with_console (console w ++ outs) w).
Proof.
  induction rs as [|r rs IH]; intros st w; simpl.
  - exists st, []. unfold ret. now rewrite with_console_same.
  - destruct (monitor_turn_console st r w) as (st1 & o1 & H1).
    unfold bind. rewrite H1.
    destruct (IH st1 (with_console (console w ++ o1) w)) as (st2 & o2 & H2).
    rewrite H2. exists st2, (o1 ++ o2). simpl.
    unfold with_console. simpl. now rewrite app_assoc.
Qed.

Lemma monitor_loop_snoc (rs : list string) (r : string) :
  forall (st : Monitor) (w : World),
    monitor_loop st (rs ++ [r]) w
    = bind (monitor_loop st rs) (fun st' => monitor_turn st' r) w.
Proof.
  induction rs as [|x rs IH]; intros st w; simpl.
  - unfold bind, ret. destruct (monitor_turn st r w) as [[?|?] ?]; reflexivity.
  - unfold bind.
    destruct (monitor_turn st x w) as [[st1|e] w1]; [|reflexivity].
    rewrite IH. reflexivity.
Qed.

(** C5 (as amended). In the monitoring loop, at every turn taken while
    the process has not ended in which the log has nothing new to read,
    if the line read in the turn before begins with 'frame=' then that
    line is rendered in place and remembered as the new previous rendered
    line; at a turn in which the read returns a new line, nothing is
    rendered and the remembered line is unchanged.  The turn is turn [i]
    of the reads [rs]; [st] and [w1] are the loop variables and the world
    when it starts. *)
Theorem monitor_renders_when_caught_up (rs : list string) (i : nat)
    (r : string) (w : World) :
  rs !! i = Some r ->
  exists (st : Monitor) (w1 : World),
    monitor_loop (mkMonitor None EmptyString) (take i rs) w = (Ok st, w1)
    /\ forall line : string,
         test st = Some line ->
         Py.startswith line "frame=" = true ->
         (r = EmptyString ->
          monitor_loop (mkMonitor None EmptyString) (take (S i) rs) w
          = (Ok (mkMonitor (Some r) line),
             with_console
               (console w1 ++ [rendered (prev_line st) line +:+ CR_str]) w1))
         /\ (r <> EmptyString ->
             monitor_loop (mkMonitor None EmptyString) (take (S i) rs) w
             = (Ok (mkMonitor (Some r) (prev_line st)), w1)).
Proof.
  intros Hr.
  destruct (monitor_loop_console (take i rs) (mkMonitor None EmptyString) w)
    as (st & outs & Hloop).
  exists st, (with_console (console w ++ outs) w).
  split; [exact Hloop|].
  intros line Ht Hf.
  rewrite (take_S_r rs i r Hr), monitor_loop_snoc.
  unfold bind. rewrite Hloop.
  split; intros Hcase.
  - subst r. now apply monitor_turn_render.
  - now apply monitor_turn_new_line.
Qed.

Lemma monitor_renders_when_caught_up_witness :
  monitor_loop (mkMonitor None EmptyString) [frame_line_8; EmptyString]
    world_two_names
  = (Ok (mkMonitor (Some EmptyString) frame_line_8),
     with_console ["frame=5" +:+ CR_str] world_two_names).
Proof.
  destruct (monitor_renders_when_caught_up [frame_line_8; EmptyString] 1
              EmptyString world_two_names eq_refl)
    as (st & w1 & Hloop & Hturn).
  assert (st = mkMonitor (Some frame_line_8) EmptyString
          /\ w1 = world_two_names) as [-> ->].
  { vm_compute in Hloop. injection Hloop as <- <-. split; reflexivity. }
  destruct (Hturn frame_line_8 eq_refl eq_refl) as [Hrender _].
  exact (Hrender eq_refl).
Defined.

(** C5 as stated fails: while the log still has lines to give, the line
    read in the turn before is not rendered, progress line though it is.
    After two turns that each read a progress line, nothing has been
    printed and no line is remembered. *)
Lemma monitor_skips_when_behind :
  Py.startswith frame_line_20 "frame=" = true
  /\ monitor_loop (mkMonitor None EmptyString) [frame_line_20; frame_line_8]
       world_two_names
     = (Ok (mkMonitor (Some frame_line_8) EmptyString), world_two_names).
Proof. split; vm_compute; reflexivity. Qed.

(** The padding of a rendered line, as the code computes it.  What the
    monitor prints for a progress line is the line's own content followed
    by padding spaces that make up the difference to the previously
    rendered line, lengths being those of the lines as read: none when
    the line is not shorter.  After a rendered line of length 20, a line
    of length 8 gets exactly 12 padding spaces after its own content.
    When [strip] takes as many characters off both lines (their line
    ends), the printed text is at least as long as what was printed for
    the previous line. *)
Theorem rendered_line_padding (st : Monitor) (line : string) (w : World) :
  test st = Some line ->
  Py.startswith line "frame=" = true ->
  exists padding : string,
    monitor_turn st EmptyString w
    = (Ok (mkMonitor (Some EmptyString) line),
       with_console
         (console w ++ [(Py.strip line +:+ padding) +:+ CR_str]) w)
    /\ padding = Py.spaces (Py.len (prev_line st) - Py.len line)
    /\ (Py.len line + Py.len padding >= Py.len (prev_line st))%nat
    /\ (Py.len (prev_line st) = 20%nat -> Py.len line = 8%nat ->
        padding = Py.spaces 12)
    /\ (forall k : nat,
          (Py.len (Py.strip line) + k = Py.len line)%nat ->
          (Py.len (Py.strip (prev_line st)) + k = Py.len (prev_line st))%nat ->
          (Py.len (Py.strip line +:+ padding)
           >= Py.len (Py.strip (prev_line st)))%nat).
Proof.
  intros Ht Hf.
  exists (Py.spaces (Py.len (prev_line st) - Py.len line)).
  split; [|split; [reflexivity|split; [|split]]].
  - rewrite (monitor_turn_render st line w Ht Hf).
    unfold rendered.
    destruct (Z.gtb_spec (Z.of_nat (Py.len (prev_line st))
                          - Z.of_nat (Py.len line)) 0) as [Hgt|Hle].
    + replace (Z.to_nat (Z.of_nat (Py.len (prev_line st))
                         - Z.of_nat (Py.len line)))
        with (Py.len (prev_line st) - Py.len line)%nat by lia.
      reflexivity.
    + replace (Py.len (prev_line st) - Py.len line)%nat with 0%nat by lia.
      reflexivity.
  - unfold Py.len at 2. rewrite length_spaces. lia.
  - intros -> ->. reflexivity.
  - intros k Hline Hprev. unfold Py.len in *.
    rewrite length_append, length_spaces. lia.
Qed.

Lemma rendered_line_padding_witness :
  exists padding : string,
    monitor_turn (mkMonitor (Some frame_line_8) frame_line_20) EmptyString
      world_two_names
    = (Ok (mkMonitor (Some EmptyString) frame_line_8),
       with_console [("frame=5" +:+ padding) +:+ CR_str] world_two_names)
    /\ padding = "            ".
Proof.
  destruct (rendered_line_padding (mkMonitor (Some frame_line_8) frame_line_20)
              frame_line_8 world_two_names eq_refl eq_refl)
    as (padding & Hturn & _ & _ & H12 & _).
  exists padding. split; [exact Hturn|].
  apply H12; reflexivity.
Defined.

(** The specification's rendering test, through the whole loop. *)
Example monitor_two_progress_lines :
  console (snd (monitor_loop (mkMonitor None EmptyString)
                  [frame_line_20; EmptyString; frame_line_8; EmptyString]
                  world_two_names))
  = ["frame=10 fps=25 q=2" +:+ CR_str;
     "frame=5            " +:+ CR_str].
Proof. vm_compute. reflexivity. Qed.

(** C6: where the code leaves the claim.  The padding is counted on the
    lines as read, white space at their ends included, while what is
    printed is the line without that white space.  After the progress
    line "frame=10" with its line feed (9 characters read, 8 printed),
    the line "frame=5" with two spaces and its line feed (10 characters
    read) counts as the longer one and gets no padding: 7 characters are
    printed over 8, and the last character of the line rendered before
    stays on the console. *)
Theorem rendered_line_shorter_than_previous :
  monitor_loop (mkMonitor None EmptyString)
    [frame_line_plain; EmptyString; frame_line_spaced; EmptyString]
    world_two_names
  = (Ok (mkMonitor (Some EmptyString) frame_line_spaced),
     with_console ["frame=10" +:+ CR_str; "frame=5" +:+ CR_str]
                  world_two_names)
  /\ rendered frame_line_plain frame_line_spaced = "frame=5"
  /\ (Py.len (rendered frame_line_plain frame_line_spaced)
      < Py.len (rendered EmptyString frame_line_plain))%nat.
Proof.
  split; [vm_compute; reflexivity|].
  split; [vm_compute; reflexivity|].
  vm_compute. lia.
Qed.

(** ** Running the transcoder: outcome *)

Lemma bind_Ok {A B} (c : M A) (k : A -> M B) (w w' : World) (a : A) :
  c w = (Ok a, w') -> bind c k w = k a w'.
Proof. intros H. unfold bind. now rewrite H. Qed.

Lemma bind_Raise {A B} (c : M A) (k : A -> M B) (w w' : World) (e : exn) :
  c w = (Raise e, w') -> bind c k w = (Raise e, w').
Proof. intros H. unfold bind. now rewrite H. Qed.

Section ExecutorProperties.

Variable ffmpeg_exe : string.
Variable can_open_wb : string -> bool.
Variable can_open_r : string -> bool.
Variable popen : list string -> handle -> Process.

Lemma do_concatenation_run (files : list string) (output : string)
    (preset : Preset) (logfile_path : option string) (w w1 : World)
    (params : list string) :
  build_ffmpeg_params preset files (started w) = (Ok params, w1) ->
  let args := command_line ffmpeg_exe params output in
  let h := handle_of (open_if_exists can_open_wb logfile_path) in
  let run := do_concatenation ffmpeg_exe can_open_wb can_open_r popen
               files output preset logfile_path w in
  spawned (snd run) = spawned w1 ++ [(args, h)]
  /\ if truthy_str logfile_path
        && negb (can_open_r (default EmptyString logfile_path))
     then fst run = Raise OSError
          /\ log_records (snd run)
             = log_records w1 ++ [executing_record args]
     else fst run = Ok tt
          /\ log_records (snd run)
             = log_records w1 ++ [executing_record args]
               ++ verdict (truthy_str logfile_path)
                          (returncode (popen args h)).
Proof.
  intros Hbuild args h run.
  set (logging := truthy_str logfile_path).
  set (rc := returncode (popen args h)).
  assert (exists wf : World,
             run = (if logging
                       && negb (can_open_r (default EmptyString logfile_path))
                    then Raise OSError else Ok tt, wf)
             /\ spawned wf = spawned w1 ++ [(args, h)]
             /\ log_records wf
                = log_records w1 ++ [executing_record args]
                  ++ if logging
                        && negb (can_open_r
                                   (default EmptyString logfile_path))
                     then [] else verdict logging rc)
    as (wf & -> & Hsp & Hlog).
  { subst run. unfold do_concatenation.
    erewrite bind_Ok by reflexivity.
    erewrite bind_Ok by exact Hbuild.
    erewrite bind_Ok by reflexivity.
    erewrite bind_Ok by reflexivity.
    fold (handle_of (open_if_exists can_open_wb logfile_path)).
    fold (command_line ffmpeg_exe params output). fold args. fold h. fold rc.
    fold logging. unfold verdict.
    destruct logging; cbn [andb].
    - unfold open_r.
      destruct (can_open_r (default EmptyString logfile_path)); cbn [negb].
      + destruct (monitor_loop_console (reads (popen args h))
                    (mkMonitor None EmptyString)
                    (with_spawned
                       (spawned (with_log_records
                                   (log_records w1
                                    ++ [executing_record args]) w1)
                        ++ [(args, h)])
                       (with_log_records
                          (log_records w1 ++ [executing_record args]) w1)))
          as (st & outs & Hloop).
        destruct (rc =? 0)%Z; cbn [negb].
        * eexists. split; [|split].
          -- erewrite bind_Ok; [|erewrite bind_Ok by reflexivity;
                                 erewrite bind_Ok by exact Hloop;
                                 erewrite bind_Ok by reflexivity;
                                 reflexivity].
             reflexivity.
          -- reflexivity.
          -- simpl. now rewrite <- app_assoc.
        * eexists. split; [|split].
          -- erewrite bind_Ok; [|erewrite bind_Ok by reflexivity;
                                 erewrite bind_Ok by exact Hloop;
                                 erewrite bind_Ok by reflexivity;
                                 reflexivity].
             reflexivity.
          -- reflexivity.
          -- simpl. now rewrite <- app_assoc.
      + eexists. split; [|split].
        * erewrite bind_Raise; [reflexivity|].
          erewrite bind_Raise; reflexivity.
        * reflexivity.
        * reflexivity.
    - destruct (rc =? 0)%Z; cbn [negb].
      + eexists. split; [|split].
        * erewrite bind_Ok by reflexivity. reflexivity.
        * reflexivity.
        * simpl. now rewrite <- app_assoc.
      + eexists. split; [|split].
        * erewrite bind_Ok by reflexivity. reflexivity.
        * reflexivity.
        * simpl. now rewrite <- app_assoc. }
  cbn [fst snd]. split; [exact Hsp|].
  destruct (logging && negb (can_open_r (default EmptyString logfile_path)));
    (split; [reflexivity | exact Hlog]).
Qed.

(** C2 (as amended). For every invocation of [do_concatenation] that
    runs to its end (the arguments get built and, when a log path is
    supplied, the log can be opened for reading), with or without a log
    path: the call returns normally and the outcome is the last record
    it logs, the INFO record 'Processing done.' if and only if the exit
    status of the process is zero, an ERROR record 'Encoding failed...'
    if and only if it is not.  The call returns [None] whatever the
    exit status. *)
Theorem do_concatenation_outcome (files : list string) (output : string)
    (preset : Preset) (logfile_path : option string) (w w1 : World)
    (params : list string) :
  build_ffmpeg_params preset files (started w) = (Ok params, w1) ->
  (truthy_str logfile_path = true ->
   can_open_r (default EmptyString logfile_path) = true) ->
  let args := command_line ffmpeg_exe params output in
  let rc := returncode
              (popen args
                 (handle_of (open_if_exists can_open_wb logfile_path))) in
  let run := do_concatenation ffmpeg_exe can_open_wb can_open_r popen
               files output preset logfile_path w in
  fst run = Ok tt
  /\ log_records (snd run)
     = log_records w1 ++ [executing_record args]
       ++ verdict (truthy_str logfile_path) rc
  /\ (last (log_records (snd run)) = Some (INFO, "Processing done.")
      <-> rc = 0%Z)
  /\ ((exists msg, last (log_records (snd run)) = Some (ERROR, msg))
      <-> rc <> 0%Z).
Proof.
  intros Hbuild Hread args rc run.
  destruct (do_concatenation_run files output preset logfile_path w w1
              params Hbuild) as [_ Hrun].
  fold args in Hrun. fold rc in Hrun. fold run in Hrun.
  assert (truthy_str logfile_path
          && negb (can_open_r (default EmptyString logfile_path)) = false)
    as Hcond.
  { destruct (truthy_str logfile_path); [|reflexivity].
    now rewrite (Hread eq_refl). }
  rewrite Hcond in Hrun. destruct Hrun as [Hres Hlog].
  split; [exact Hres|]. split; [exact Hlog|].
  rewrite Hlog, app_assoc. unfold verdict.
  destruct (Z.eqb_spec rc 0) as [E|E]; rewrite last_snoc.
  - split; [split; [intros _; exact E | reflexivity]|].
    split; [intros [msg H]; discriminate H | intros H; contradiction].
  - split; [split; [intros H; discriminate H | intros H; contradiction]|].
    split; [intros _; exact E | intros _; eauto].
Qed.

(** C10 (as amended). For every invocation of [do_concatenation] with a
    log path whose file cannot be opened for writing, the output of the
    process is discarded (it is started on the null device).  The run
    then goes on to its end and reports its outcome as usual when the
    log path can be opened for reading; when it cannot, the call raises
    [OSError] once the process has been started. *)
Theorem do_concatenation_unopenable_log (files : list string)
    (output path : string) (preset : Preset) (w w1 : World)
    (params : list string) :
  truthy_str (Some path) = true ->
  can_open_wb path = false ->
  build_ffmpeg_params preset files (started w) = (Ok params, w1) ->
  let args := command_line ffmpeg_exe params output in
  let run := do_concatenation ffmpeg_exe can_open_wb can_open_r popen
               files output preset (Some path) w in
  spawned (snd run) = spawned w1 ++ [(args, DEVNULL)]
  /\ (can_open_r path = true ->
      fst run = Ok tt
      /\ log_records (snd run)
         = log_records w1 ++ [executing_record args]
           ++ verdict true (returncode (popen args DEVNULL)))
  /\ (can_open_r path = false -> fst run = Raise OSError).
Proof.
  intros Hpath Hwb Hbuild args run.
  destruct (do_concatenation_run files output preset (Some path) w w1
              params Hbuild) as [Hsp Hrun].
  fold args in Hsp, Hrun. fold run in Hsp, Hrun.
  assert (open_if_exists can_open_wb (Some path) = None) as Hnone
    by (unfold open_if_exists; now rewrite Hwb, andb_false_r).
  rewrite Hnone in Hsp, Hrun. change (handle_of None) with DEVNULL in Hsp, Hrun.
  rewrite Hpath in Hrun.
  change (default EmptyString (Some path)) with path in Hrun.
  split; [exact Hsp|]. split; intros Hr; rewrite Hr in Hrun.
  - exact Hrun.
  - exact (proj1 Hrun).
Qed.

End ExecutorProperties.

Lemma do_concatenation_outcome_witness :
  fst (do_concatenation "ffmpeg" (always true) (always true)
         (silent_process 1) ["a.dv"; "b.dv"] "out.dv" preset_copydv
         (Some "ffmpeg.log") world_two_names) = Ok tt
  /\ last (log_records
             (snd (do_concatenation "ffmpeg" (always true) (always true)
                     (silent_process 1) ["a.dv"; "b.dv"] "out.dv"
                     preset_copydv (Some "ffmpeg.log") world_two_names)))
     = Some (ERROR, "Encoding failed. Check the log file for the error.").
Proof.
  destruct (do_concatenation_outcome "ffmpeg" (always true) (always true)
              (silent_process 1) ["a.dv"; "b.dv"] "out.dv" preset_copydv
              (Some "ffmpeg.log") world_two_names
              (started world_two_names)
              ["-i"; "concat:a.dv|b.dv"; "-c"; "copy"])
    as (Hres & Hlog & _ & _).
  - reflexivity.
  - reflexivity.
  - split; [exact Hres|]. rewrite Hlog. reflexivity.
Defined.

(** C2 as stated fails: the exit status is not kept for the caller.  The
    runs of a process that ends with status 1 and of one that ends with
    status 2 leave the same result and the same world, with a log path and
    without one, so no reading of what [do_concatenation] leaves behind
    gives the status back. *)
Lemma do_concatenation_exit_code_lost :
  ~ exists code_of : result unit * World -> Z,
      forall (rc : Z) (logfile_path : option string),
        rc <> 0%Z ->
        code_of (do_concatenation "ffmpeg" (always true) (always true)
                   (silent_process rc) ["a.dv"; "b.dv"] "out.dv"
                   preset_copydv logfile_path world_two_names) = rc.
Proof.
  intros [code_of H].
  pose proof (H 1%Z None ltac:(discriminate)) as H1.
  pose proof (H 2%Z None ltac:(discriminate)) as H2.
  assert (do_concatenation "ffmpeg" (always true) (always true)
            (silent_process 1) ["a.dv"; "b.dv"] "out.dv" preset_copydv None
            world_two_names
          = do_concatenation "ffmpeg" (always true) (always true)
              (silent_process 2) ["a.dv"; "b.dv"] "out.dv" preset_copydv None
              world_two_names) as E by (vm_compute; reflexivity).
  rewrite E in H1. rewrite H1 in H2. discriminate.
Qed.

Lemma do_concatenation_unopenable_log_witness :
  spawned (snd (do_concatenation "ffmpeg" (always false) (always true)
                  (silent_process 0) ["a.dv"; "b.dv"] "out.dv" preset_copydv
                  (Some "ffmpeg.log") world_two_names))
  = [(["ffmpeg"; "-i"; "concat:a.dv|b.dv"; "-c"; "copy"; "-y"; "out.dv"],
      DEVNULL)]
  /\ fst (do_concatenation "ffmpeg" (always false) (always true)
            (silent_process 0) ["a.dv"; "b.dv"] "out.dv" preset_copydv
            (Some "ffmpeg.log") world_two_names) = Ok tt.
Proof.
  destruct (do_concatenation_unopenable_log "ffmpeg" (always false)
              (always true) (silent_process 0) ["a.dv"; "b.dv"] "out.dv"
              "ffmpeg.log" preset_copydv world_two_names
              (started world_two_names)
              ["-i"; "concat:a.dv|b.dv"; "-c"; "copy"])
    as (Hsp & Hok & _).
  - reflexivity.
  - reflexivity.
  - reflexivity.
  - split; [exact Hsp|]. exact (proj1 (Hok eq_refl)).
Defined.

(** C10 as stated fails: with a log path that can be opened neither for
    writing nor for reading, the process is started on the null device and
    the call then raises; no outcome is reported. *)
Lemma do_concatenation_unopenable_log_raises :
  do_concatenation "ffmpeg" (always false) (always false)
    (silent_process 0) ["a.dv"; "b.dv"] "out.dv" preset_copydv
    (Some "missing/ffmpeg.log") world_two_names
  = (Raise OSError,
     mkWorld ∅ ["/tmp/tmpk3x"; "/tmp/tmpq7a"] []
       [(INFO, "Starting video processing. This can take a while...");
        (DEBUG, "Executing: 'ffmpeg' '-i' 'concat:a.dv|b.dv' '-c' 'copy' '-y' 'out.dv'")]
       []
       [(["ffmpeg"; "-i"; "concat:a.dv|b.dv"; "-c"; "copy"; "-y"; "out.dv"],
         DEVNULL)]).
Proof. vm_compute. reflexivity. Qed.

(** * Further properties *)

(** ** The argument builder and the world *)

Lemma first_unused_suffix (fs : gmap string string) (names : list string)
    (t : string) (rest : list string) :
  first_unused fs names = Some (t, rest) ->
  exists tried, names = tried ++ t :: rest
                /\ Forall (fun n => is_Some (fs !! n)) tried.
Proof.
  revert t rest. induction names as [|n names IH]; intros t rest; simpl;
    [discriminate|].
  destruct (fs !! n) eqn:E.
  - intros H. destruct (IH _ _ H) as (tried & -> & Htried).
    exists (n :: tried). split; [reflexivity|].
    constructor; [eauto | exact Htried].
  - intros [= <- <-]. exists []. split; [reflexivity | constructor].
Qed.

(** X1. Under the Protocol and the Filter strategy [build_ffmpeg_params]
    always returns an argument vector and leaves the world as it was: no
    file is written, nothing is registered for the exit, nothing is
    logged. *)
Theorem build_without_manifest (self : Preset) (input_files : list string)
    (w : World) :
  concat_strategy self <> CONCAT_DEMUX ->
  exists args : list string,
    build_ffmpeg_params self input_files w = (Ok args, w).
Proof.
  intros Hs. unfold build_ffmpeg_params.
  destruct (concat_strategy self); [eexists; reflexivity..|contradiction].
Qed.

Lemma build_without_manifest_witness :
  exists args : list string,
    build_ffmpeg_params preset_4k ["a.mp4"] world_two_names
    = (Ok args, world_two_names).
Proof.
  apply (build_without_manifest preset_4k ["a.mp4"] world_two_names).
  discriminate.
Defined.

(** X2. Under the Demux strategy [build_ffmpeg_params] touches the world
    in two places only: the manifest it creates under the name [mkstemp]
    found, which it registers for removal at exit, after the paths
    registered before.  Every other file is as it was, nothing is logged
    or printed and no process is started; the names tried before the
    manifest's were all taken. *)
Theorem build_demux_footprint (self : Preset) (input_files : list string)
    (w : World) (t : string) :
  concat_strategy self = CONCAT_DEMUX ->
  fst (mkstemp w) = Ok t ->
  let w' := snd (build_ffmpeg_params self input_files w) in
  atexit_unlink w' = atexit_unlink w ++ [t]
  /\ (forall p : string, p <> t -> files w' !! p = files w !! p)
  /\ log_records w' = log_records w
  /\ console w' = console w
  /\ spawned w' = spawned w
  /\ exists tried : list string,
       tmp_names w = tried ++ t :: tmp_names w'
       /\ Forall (fun n => is_Some (files w !! n)) tried.
Proof.
  intros Hs Ht w'. subst w'. unfold mkstemp in Ht.
  destruct (first_unused (files w) (tmp_names w)) as [[n rest]|] eqn:Hn;
    [|discriminate].
  simpl in Ht. injection Ht as ->.
  rewrite (build_demux self input_files w t rest Hs Hn). simpl.
  split; [reflexivity|].
  split; [intros p Hp; now apply lookup_insert_ne|].
  repeat (split; [reflexivity|]).
  now apply first_unused_suffix.
Qed.

Lemma build_demux_footprint_witness :
  atexit_unlink
    (snd (build_ffmpeg_params preset_copy ["a.dv"] world_two_names))
  = ["/tmp/tmpk3x"].
Proof.
  apply (build_demux_footprint preset_copy ["a.dv"] world_two_names
           "/tmp/tmpk3x"); reflexivity.
Defined.

Lemma build_raises (self : Preset) (input_files : list string) (w : World)
    (e : exn) (w' : World) :
  build_ffmpeg_params self input_files w = (Raise e, w') ->
  e = FileExistsError /\ w' = w
  /\ concat_strategy self = CONCAT_DEMUX
  /\ first_unused (files w) (tmp_names w) = None.
Proof.
  intros H.
  destruct (concat_strategy self) eqn:Hs.
  - unfold build_ffmpeg_params in H. rewrite Hs in H. discriminate.
  - unfold build_ffmpeg_params in H. rewrite Hs in H. discriminate.
  - destruct (first_unused (files w) (tmp_names w)) as [[n rest]|] eqn:Hn.
    + rewrite (build_demux self input_files w n rest Hs Hn) in H.
      discriminate.
    + unfold build_ffmpeg_params in H. rewrite Hs in H.
      unfold bind, mkstemp in H. rewrite Hn in H.
      injection H as <- <-. auto.
Qed.

Lemma first_unused_all_taken (fs : gmap string string)
    (names : list string) :
  Forall (fun n => is_Some (fs !! n)) names -> first_unused fs names = None.
Proof.
  induction 1 as [|n names [c Hn] _ IH]; [reflexivity|].
  simpl. now rewrite Hn.
Qed.

(** X3. Under the Demux strategy, when every name [mkstemp] draws is
    taken, [build_ffmpeg_params] raises [FileExistsError] and leaves the
    world as it was: no manifest is created, nothing is registered for
    the exit, and the names of the files that exist are kept. *)
Theorem build_demux_without_name (self : Preset)
    (input_files : list string) (w : World) :
  concat_strategy self = CONCAT_DEMUX ->
  Forall (fun n => is_Some (files w !! n)) (tmp_names w) ->
  build_ffmpeg_params self input_files w = (Raise FileExistsError, w).
Proof.
  intros Hs Htaken. apply first_unused_all_taken in Htaken.
  unfold build_ffmpeg_params. rewrite Hs.
  unfold bind, mkstemp. now rewrite Htaken.
Qed.

Lemma build_demux_without_name_witness :
  build_ffmpeg_params preset_copy ["a.dv"]
    (with_files (<["/tmp/tmpk3x" := "taken"]> ∅)
       (with_tmp_names ["/tmp/tmpk3x"] world_two_names))
  = (Raise FileExistsError,
     with_files (<["/tmp/tmpk3x" := "taken"]> ∅)
       (with_tmp_names ["/tmp/tmpk3x"] world_two_names)).
Proof.
  apply (build_demux_without_name preset_copy ["a.dv"]
           (with_files (<["/tmp/tmpk3x" := "taken"]> ∅)
              (with_tmp_names ["/tmp/tmpk3x"] world_two_names))).
  - reflexivity.
  - constructor; [|constructor]. vm_compute. eauto.
Defined.

Lemma no_backslash_append (a b : string) :
  no_backslash (a +:+ b) = no_backslash a && no_backslash b.
Proof.
  induction a as [|c a IH]; [reflexivity|].
  rewrite append_cons. simpl. rewrite IH. now rewrite andb_assoc.
Qed.

Lemma no_backslash_replace (s : string) :
  no_backslash (Py.replace s "\" "/") = true.
Proof.
  induction s as [|c s IH]; simpl; [reflexivity|].
  rewrite IH, andb_true_r.
  destruct (Ascii.eqb c "\") eqn:E; [reflexivity|].
  now rewrite E.
Qed.

Lemma no_backslash_manifest_text (input_files : list string) :
  no_backslash (manifest_text input_files) = true.
Proof.
  induction input_files as [|f l IH]; [reflexivity|].
  cbn [manifest_text]. unfold manifest_line.
  rewrite !no_backslash_append, no_backslash_replace, IH. reflexivity.
Qed.

(** X4. Whatever the input paths, the manifest the Demux strategy writes
    holds no backslash: every one of them is written as a forward
    slash. *)
Theorem demux_manifest_no_backslash (self : Preset)
    (input_files : list string) (w : World) (t : string) :
  concat_strategy self = CONCAT_DEMUX ->
  fst (mkstemp w) = Ok t ->
  exists content : string,
    files (snd (build_ffmpeg_params self input_files w)) !! t = Some content
    /\ no_backslash content = true.
Proof.
  intros Hs Ht. unfold mkstemp in Ht.
  destruct (first_unused (files w) (tmp_names w)) as [[n rest]|] eqn:Hn;
    [|discriminate].
  simpl in Ht. injection Ht as ->.
  exists (manifest_text input_files).
  rewrite (build_demux self input_files w t rest Hs Hn). simpl.
  split; [apply lookup_insert_eq | apply no_backslash_manifest_text].
Qed.

Lemma demux_manifest_no_backslash_witness :
  exists content : string,
    files (snd (build_ffmpeg_params preset_copy ["C:\clips\a.dv"]
                  world_two_names)) !! "/tmp/tmpk3x" = Some content
    /\ no_backslash content = true.
Proof.
  apply (demux_manifest_no_backslash preset_copy ["C:\clips\a.dv"]
           world_two_names "/tmp/tmpk3x"); reflexivity.
Defined.

(** ** Sorting: what holds for the three orderings *)

Section SortedFurther.
Context {K A : Type} (ltb : K -> K -> bool).
Hypothesis ltb_asym : forall a b, ltb a b = true -> ltb b a = false.
Hypothesis ltb_cotrans :
  forall a b c, ltb a c = true -> ltb a b = true \/ ltb b c = true.
Variable key : A -> K.

(** A sorted list is left as it is. *)
Lemma sort_keyed_fixed (l : list (K * A)) :
  StronglySorted (not_after ltb) l -> sort_keyed ltb l = l.
Proof.
  induction 1 as [|x l Hl IH Hx]; [reflexivity|].
  cbn [sort_keyed]. rewrite IH.
  destruct l as [|y l']; [reflexivity|].
  cbn [insert_sorted].
  apply Forall_cons in Hx as [Hxy _]. unfold not_after in Hxy.
  now rewrite Hxy.
Qed.

Lemma sort_keyed_keyed (l : list A) :
  Forall (fun kp => fst kp = key (snd kp))
         (sort_keyed ltb (List.combine (List.map key l) l)).
Proof.
  assert (Permutation (List.combine (List.map key l) l)
                      (sort_keyed ltb (List.combine (List.map key l) l)))
    as HP by (symmetry; apply sort_keyed_perm).
  rewrite <- HP. apply combine_keys_keyed.
Qed.

Lemma keyed_combine (l : list (K * A)) :
  Forall (fun kp => fst kp = key (snd kp)) l ->
  List.combine (List.map key (List.map snd l)) (List.map snd l) = l.
Proof.
  induction 1 as [|[k a] l Hk _ IH]; [reflexivity|].
  simpl in *. now rewrite IH, <- Hk.
Qed.

Lemma sorted_with_keys_idempotent (l : list A) :
  let out := sorted_with_keys ltb (List.map key l) l in
  sorted_with_keys ltb (List.map key out) out = out.
Proof.
  intros out. subst out. unfold sorted_with_keys.
  rewrite (keyed_combine _ (sort_keyed_keyed l)).
  rewrite sort_keyed_fixed; [reflexivity|].
  now apply sort_keyed_sorted.
Qed.

Lemma filter_map_snd_keyed (f : K -> bool) (l : list (K * A)) :
  Forall (fun kp => fst kp = key (snd kp)) l ->
  List.filter (fun a => f (key a)) (List.map snd l)
  = List.map snd (List.filter (fun kp => f (fst kp)) l).
Proof.
  induction 1 as [|[k a] l Hk _ IH]; [reflexivity|].
  simpl in *. rewrite <- Hk, IH. now destruct (f k).
Qed.

(** The elements whose keys are tied with [k] keep their order. *)
Lemma sorted_with_keys_stable (k : K) (l : list A) :
  List.filter (fun a => tied ltb k (key a, a))
              (sorted_with_keys ltb (List.map key l) l)
  = List.filter (fun a => tied ltb k (key a, a)) l.
Proof.
  unfold sorted_with_keys.
  set (g := fun x : K => negb (ltb k x) && negb (ltb x k)).
  change (fun a : A => tied ltb k (key a, a)) with (fun a : A => g (key a)).
  rewrite (filter_map_snd_keyed g _ (sort_keyed_keyed l)).
  change (fun kp : K * A => g (fst kp)) with (tied (A:=A) ltb k).
  rewrite (sort_keyed_stable ltb ltb_cotrans k).
  change (tied (A:=A) ltb k) with (fun kp : K * A => g (fst kp)).
  rewrite <- (filter_map_snd_keyed g _ (combine_keys_keyed key l)).
  now rewrite combine_keys_snd.
Qed.

End SortedFurther.

Lemma filter_filter_impl {A} (f g : A -> bool) (l : list A) :
  (forall x, f x = true -> g x = true) ->
  List.filter f (List.filter g l) = List.filter f l.
Proof.
  intros Hfg. induction l as [|x l IH]; [reflexivity|].
  simpl. destruct (g x) eqn:Eg; simpl.
  - now rewrite IH.
  - rewrite IH. destruct (f x) eqn:Ef; [|reflexivity].
    rewrite (Hfg x Ef) in Eg. discriminate.
Qed.

Lemma string_ltb_asym (a b : string) :
  String.ltb a b = true -> String.ltb b a = false.
Proof.
  unfold String.ltb. rewrite (String.compare_antisym b a).
  now destruct (String.compare a b).
Qed.

Lemma string_ltb_leb (a b : string) :
  String.ltb a b = negb (String.leb b a).
Proof.
  unfold String.ltb, String.leb. rewrite (String.compare_antisym b a).
  now destruct (String.compare a b).
Qed.

Lemma string_ltb_cotrans (a b c : string) :
  String.ltb a c = true -> String.ltb a b = true \/ String.ltb b c = true.
Proof.
  rewrite !string_ltb_leb. intros Hac.
  destruct (String.leb b a) eqn:Hba; [|now left].
  destruct (String.leb c b) eqn:Hcb; [|now right].
  assert (String.le c a) as Hca.
  { transitivity b; unfold String.le; [now rewrite Hcb | now rewrite Hba]. }
  unfold String.le in Hca. apply Is_true_true in Hca.
  rewrite Hca in Hac. discriminate.
Qed.

Lemma string_tied_eq (k x : string) (y : string) :
  tied String.ltb k (x, y) = String.eqb x k.
Proof.
  unfold tied. simpl. unfold String.ltb.
  rewrite (String.compare_antisym x k).
  destruct (String.compare k x) eqn:E; simpl.
  - apply String.compare_eq_iff in E. subst. now rewrite String.eqb_refl.
  - symmetry. apply String.eqb_neq. intros ->.
    pose proof E as E'. rewrite (String.compare_antisym k k) in E'.
    rewrite E in E'. discriminate.
  - symmetry. apply String.eqb_neq. intros ->.
    pose proof E as E'. rewrite (String.compare_antisym k k) in E'.
    rewrite E in E'. discriminate.
Qed.

(** ** The file list *)

Section FileListProperties.

Variable metacache_get :
  string -> (string -> result FileMeta) -> result FileMeta.
Variable mediatools_get_meta : string -> result FileMeta.

(** X5. Adding a file and looking it up: when the cache answers with a
    record, [add_file] returns the list with the path appended at the end
    of the paths (also when the path was there already) and the record
    under that path, the entries of the other paths being as they were;
    when the cache raises, the exception comes out of [add_file] and
    there is no new list. *)
Theorem add_file_lookup (self : FileList) (path : string) :
  match metacache_get path mediatools_get_meta with
  | Ok fetched =>
      exists self' : FileList,
        add_file metacache_get mediatools_get_meta self path = Ok self'
        /\ FileList_get_meta self' path = Some fetched
        /\ (forall q : string,
              q <> path ->
              FileList_get_meta self' q = FileList_get_meta self q)
        /\ FileList_get_paths self' = FileList_get_paths self ++ [path]
  | Raise e =>
      add_file metacache_get mediatools_get_meta self path = Raise e
  end.
Proof.
  unfold add_file.
  destruct (metacache_get path mediatools_get_meta) as [fetched|e];
    [|reflexivity].
  eexists. split; [reflexivity|].
  unfold FileList_get_meta, FileList_get_paths. simpl.
  split; [apply lookup_insert_eq|].
  split; [|reflexivity].
  intros q Hq. now apply lookup_insert_ne.
Qed.

Lemma add_file_has_metadata (self self' : FileList) (path : string) :
  has_metadata self ->
  add_file metacache_get mediatools_get_meta self path = Ok self' ->
  has_metadata self' /\ paths self' = paths self ++ [path].
Proof.
  unfold add_file, has_metadata. intros Hinv.
  intros (fetched & _ & [= <-])%and_then_Ok. simpl.
  split; [|reflexivity].
  apply Forall_app. split.
  - eapply Forall_impl; [exact Hinv|].
    intros q [m Hm]. destruct (decide (path = q)) as [->|Hne].
    + rewrite lookup_insert_eq. eauto.
    + rewrite lookup_insert_ne by exact Hne. eauto.
  - constructor; [|constructor]. rewrite lookup_insert_eq. eauto.
Qed.

Lemma add_files_has_metadata (new_paths : list string) :
  forall self self' : FileList,
    has_metadata self ->
    add_files metacache_get mediatools_get_meta self new_paths = Ok self' ->
    has_metadata self' /\ paths self' = paths self ++ new_paths.
Proof.
  induction new_paths as [|p ps IH]; intros self self' Hinv; simpl.
  - intros [= <-]. now rewrite app_nil_r.
  - intros (self1 & H1 & H2)%and_then_Ok.
    destruct (add_file_has_metadata _ _ _ Hinv H1) as [Hinv1 Hp1].
    destruct (IH _ _ Hinv1 H2) as [Hinv' Hp'].
    split; [exact Hinv'|]. rewrite Hp', Hp1. now rewrite <- app_assoc.
Qed.

(** X6. A file list filled by [add_file], from the empty list on, keeps
    its invariant: the paths are the added ones, in the order of the
    calls, and each has its metadata entry; so [sort_by_datetime] finds
    the entry of every path and returns, without [KeyError]. *)
Theorem add_files_then_sort (new_paths : list string) (self : FileList)
    (fromtimestamp_0 : datetime) (w : World) :
  add_files metacache_get mediatools_get_meta FileList_new new_paths
  = Ok self ->
  paths self = new_paths
  /\ has_metadata self
  /\ exists sorted : FileList,
       fst (sort_by_datetime fromtimestamp_0 self w) = Ok sorted.
Proof.
  intros Hadd.
  destruct (add_files_has_metadata new_paths FileList_new self) as [Hinv Hp];
    [constructor | exact Hadd |].
  split; [exact Hp|]. split; [exact Hinv|].
  unfold sort_by_datetime, bind.
  rewrite (map_M_get_sort_datetime fromtimestamp_0 self _ Hinv).
  eexists. reflexivity.
Qed.

End FileListProperties.

Lemma add_files_then_sort_witness :
  paths (mkFileList ["b.dv"; "a.dv"]
           (<["a.dv" := FileMeta_new]> (<["b.dv" := FileMeta_new]> ∅)))
  = ["b.dv"; "a.dv"].
Proof.
  apply (add_files_then_sort (fun _ _ => Ok FileMeta_new)
           (fun _ => Ok FileMeta_new) ["b.dv"; "a.dv"] _ epoch_utc
           world_two_names).
  vm_compute. reflexivity.
Defined.

Section SortByDatetimeFurther.

Variable fromtimestamp_0 : datetime.
Variable self : FileList.

Lemma metadata_or_missing (l : list string) :
  Forall (fun p => is_Some (meta self !! p)) l
  \/ Exists (fun p => meta self !! p = None) l.
Proof.
  induction l as [|p l [IH|IH]].
  - left. constructor.
  - destruct (meta self !! p) eqn:E.
    + left. constructor; [rewrite E; eauto | exact IH].
    + right. now constructor.
  - right. now constructor 2.
Qed.

Lemma map_M_get_sort_datetime_missing (l : list string) :
  Exists (fun p => meta self !! p = None) l ->
  forall w : World,
    fst (map_M (_get_sort_datetime fromtimestamp_0 self) l w)
    = Raise KeyError.
Proof.
  induction l as [|p l IH]; intros Hex w; [inversion Hex|].
  cbn [map_M]. unfold bind at 1. unfold _get_sort_datetime at 1.
  destruct (meta self !! p) as [m|] eqn:E; [|reflexivity].
  assert (Exists (fun p => meta self !! p = None) l) as Hl
    by (inversion Hex; [congruence | assumption]).
  destruct (fm_datetime m).
  - unfold ret at 1. unfold bind. specialize (IH Hl w).
    destruct (map_M _ l w) as [[ks|e] w']; simpl in *; congruence.
  - unfold bind at 1. unfold log at 1. unfold ret at 1. unfold bind.
    match goal with
    | |- context [map_M _ l ?w0] =>
        specialize (IH Hl w0); destruct (map_M _ l w0) as [[ks|e] w']
    end; simpl in *; congruence.
Qed.

(** X7. [sort_by_datetime] raises exactly when some path of the list has
    no metadata entry, and then it is [KeyError]; with an entry for every
    path it returns. *)
Theorem sort_by_datetime_KeyError (w : World) :
  (Exists (fun p => meta self !! p = None) (paths self)
   <-> fst (sort_by_datetime fromtimestamp_0 self w) = Raise KeyError)
  /\ (has_metadata self
      <-> exists sorted : FileList,
            fst (sort_by_datetime fromtimestamp_0 self w) = Ok sorted).
Proof.
  assert (Exists (fun p => meta self !! p = None) (paths self) ->
          fst (sort_by_datetime fromtimestamp_0 self w) = Raise KeyError)
    as Hmiss.
  { intros Hex. unfold sort_by_datetime, bind.
    pose proof (map_M_get_sort_datetime_missing _ Hex w) as H.
    destruct (map_M _ (paths self) w) as [[ks|e] w']; simpl in *;
      congruence. }
  assert (has_metadata self ->
          exists sorted : FileList,
            fst (sort_by_datetime fromtimestamp_0 self w) = Ok sorted)
    as Hall.
  { intros Hinv. unfold sort_by_datetime, bind.
    rewrite (map_M_get_sort_datetime fromtimestamp_0 self _ Hinv).
    eexists. reflexivity. }
  split; split; try assumption.
  - intros Hr. destruct (metadata_or_missing (paths self)) as [H|H];
      [|exact H].
    destruct (Hall H) as [sorted Hs]. congruence.
  - intros [sorted Hs].
    destruct (metadata_or_missing (paths self)) as [H|H]; [exact H|].
    rewrite (Hmiss H) in Hs. discriminate.
Qed.

(** X8. [sort_by_datetime] is stable: the paths whose keys are tied keep
    the order they had; in particular the paths without time stamp, which
    all get the epoch origin, come out in their input order. *)
Theorem sort_by_datetime_stable (w : World) :
  has_metadata self ->
  exists (out : list string) (w' : World),
    sort_by_datetime fromtimestamp_0 self w
    = (Ok (mkFileList out (meta self)), w')
    /\ (forall k : datetime,
          List.filter
            (fun p => tied dt_ltb k (sort_key fromtimestamp_0 self p, p)) out
          = List.filter
              (fun p => tied dt_ltb k (sort_key fromtimestamp_0 self p, p))
              (paths self))
    /\ List.filter (unset_datetime self) out
       = List.filter (unset_datetime self) (paths self).
Proof.
  intros Hinv. eexists _, _. split.
  { unfold sort_by_datetime, bind.
    rewrite (map_M_get_sort_datetime fromtimestamp_0 self _ Hinv).
    reflexivity. }
  assert (forall k : datetime,
            List.filter
              (fun p => tied dt_ltb k (sort_key fromtimestamp_0 self p, p))
              (sorted_with_keys dt_ltb
                 (List.map (sort_key fromtimestamp_0 self) (paths self))
                 (paths self))
            = List.filter
                (fun p => tied dt_ltb k (sort_key fromtimestamp_0 self p, p))
                (paths self)) as Hstable
    by (intros k; apply sorted_with_keys_stable; apply dt_ltb_cotrans).
  split; [exact Hstable|].
  assert (forall p, unset_datetime self p = true ->
                    tied dt_ltb fromtimestamp_0
                         (sort_key fromtimestamp_0 self p, p) = true) as Hun.
  { intros p Hp. unfold unset_datetime in Hp. unfold sort_key, tied.
    destruct (meta self !! p) as [m|]; [|discriminate].
    destruct (fm_datetime m); [discriminate|]. simpl.
    destruct (dt_ltb fromtimestamp_0 fromtimestamp_0) eqn:E; [|reflexivity].
    rewrite (dt_ltb_asym _ _ E) in E. discriminate. }
  rewrite <- (filter_filter_impl _ _ _ Hun).
  rewrite <- (filter_filter_impl _ _ (paths self) Hun).
  now rewrite Hstable.
Qed.

(** X9. Sorting by time stamp a second time changes nothing in the
    order: the list that [sort_by_datetime] returns is returned again
    when it is sorted again (the warnings for the paths without time
    stamp are logged once more). *)
Theorem sort_by_datetime_idempotent (w w1 : World) (sorted : FileList) :
  has_metadata self ->
  sort_by_datetime fromtimestamp_0 self w = (Ok sorted, w1) ->
  has_metadata sorted
  /\ sort_by_datetime fromtimestamp_0 sorted w1
     = (Ok sorted,
        with_log_records
          (log_records w1
           ++ List.map warning_for
                (List.filter (unset_datetime sorted) (paths sorted))) w1).
Proof.
  intros Hinv Hrun.
  unfold sort_by_datetime, bind in Hrun.
  rewrite (map_M_get_sort_datetime fromtimestamp_0 self _ Hinv) in Hrun.
  unfold ret in Hrun. injection Hrun as <- _.
  assert (has_metadata
            (mkFileList
               (sorted_with_keys dt_ltb
                  (List.map (sort_key fromtimestamp_0 self) (paths self))
                  (paths self)) (meta self))) as Hinv'.
  { unfold has_metadata in *. simpl.
    rewrite (sorted_with_keys_perm dt_ltb (sort_key fromtimestamp_0 self)).
    exact Hinv. }
  split; [exact Hinv'|].
  unfold sort_by_datetime, bind.
  rewrite (map_M_get_sort_datetime fromtimestamp_0 _ _ Hinv').
  unfold ret. simpl.
  change (sort_key fromtimestamp_0
            {| paths := sorted_with_keys dt_ltb
                          (List.map (sort_key fromtimestamp_0 self)
                                    (paths self)) (paths self);
               meta := meta self |})
    with (sort_key fromtimestamp_0 self).
  rewrite (sorted_with_keys_idempotent dt_ltb dt_ltb_asym dt_ltb_cotrans).
  reflexivity.
Qed.

End SortByDatetimeFurther.

Lemma sort_by_datetime_KeyError_witness :
  fst (sort_by_datetime epoch_utc (mkFileList ["a.dv"] ∅) world_two_names)
  = Raise KeyError.
Proof.
  apply (proj1 (sort_by_datetime_KeyError epoch_utc (mkFileList ["a.dv"] ∅)
                  world_two_names)).
  constructor. reflexivity.
Defined.

Lemma sort_by_datetime_stable_witness :
  exists (out : list string) (w' : World),
    sort_by_datetime epoch_utc files_x_y_z world_two_names
    = (Ok (mkFileList out (meta files_x_y_z)), w')
    /\ List.filter (unset_datetime files_x_y_z) out = ["x"; "z"].
Proof.
  destruct (sort_by_datetime_stable epoch_utc files_x_y_z world_two_names)
    as (out & w' & Hrun & _ & Hunset).
  - repeat (constructor; [vm_compute; eauto|]). constructor.
  - exists out, w'. split; [exact Hrun|]. rewrite Hunset.
    vm_compute. reflexivity.
Defined.

Lemma sort_by_datetime_idempotent_witness :
  fst (sort_by_datetime epoch_utc
         (mkFileList ["x"; "z"; "y"] (meta files_x_y_z))
         (snd (sort_by_datetime epoch_utc files_x_y_z world_two_names)))
  = Ok (mkFileList ["x"; "z"; "y"] (meta files_x_y_z)).
Proof.
  destruct (sort_by_datetime_idempotent epoch_utc files_x_y_z world_two_names
              (snd (sort_by_datetime epoch_utc files_x_y_z world_two_names))
              (mkFileList ["x"; "z"; "y"] (meta files_x_y_z)))
    as [_ Hagain].
  - repeat (constructor; [vm_compute; eauto|]). constructor.
  - vm_compute. reflexivity.
  - now rewrite Hagain.
Defined.

(** X10. [sort_by_path] rearranges the paths into ascending order of the
    strings: the result holds the same paths, no path stands before a
    smaller one, the metadata is untouched, and sorting the sorted list
    again gives it back. *)
Theorem sort_by_path_sorted (self : FileList) :
  Permutation (paths (sort_by_path self)) (paths self)
  /\ StronglySorted (fun p q => String.ltb q p = false)
                    (paths (sort_by_path self))
  /\ meta (sort_by_path self) = meta self
  /\ sort_by_path (sort_by_path self) = sort_by_path self.
Proof.
  unfold sort_by_path. simpl.
  assert (forall l : list string,
            sorted_with_keys String.ltb l l
            = sorted_with_keys String.ltb (List.map (fun p => p) l) l) as Hid
    by (intros l; now rewrite List.map_id).
  split; [|split; [|split]].
  - rewrite Hid. apply sorted_with_keys_perm.
  - rewrite Hid.
    apply (sorted_with_keys_sorted String.ltb string_ltb_asym
             string_ltb_cotrans (fun p => p)).
  - reflexivity.
  - f_equal. rewrite (Hid (paths self)), Hid.
    apply (sorted_with_keys_idempotent String.ltb string_ltb_asym
             string_ltb_cotrans (fun p => p)).
Qed.

(** X11. [sort_by_filename] rearranges the paths into ascending order of
    their base names, whatever the directories: the result holds the same
    paths, no path stands before one with a smaller base name, the paths
    with one base name keep the order they had, and sorting the sorted
    list again gives it back. *)
Theorem sort_by_filename_sorted (basename : string -> string)
    (self : FileList) :
  Permutation (paths (sort_by_filename basename self)) (paths self)
  /\ StronglySorted
       (fun p q => String.ltb (basename q) (basename p) = false)
       (paths (sort_by_filename basename self))
  /\ (forall name : string,
        List.filter (fun p => String.eqb (basename p) name)
                    (paths (sort_by_filename basename self))
        = List.filter (fun p => String.eqb (basename p) name) (paths self))
  /\ sort_by_filename basename (sort_by_filename basename self)
     = sort_by_filename basename self.
Proof.
  unfold sort_by_filename. simpl.
  split; [|split; [|split]].
  - apply sorted_with_keys_perm.
  - apply (sorted_with_keys_sorted String.ltb string_ltb_asym
             string_ltb_cotrans basename).
  - intros name.
    pose proof (sorted_with_keys_stable String.ltb string_ltb_cotrans
                  basename name (paths self)) as H.
    erewrite (List.filter_ext _ (fun p => String.eqb (basename p) name)) in H
      by (intros p; apply string_tied_eq).
    erewrite (List.filter_ext
                (fun a => tied String.ltb name (basename a, a))
                (fun p => String.eqb (basename p) name)) in H
      by (intros p; apply string_tied_eq).
    exact H.
  - f_equal.
    apply (sorted_with_keys_idempotent String.ltb string_ltb_asym
             string_ltb_cotrans basename).
Qed.

(** The two orderings on three paths in two directories. *)
Example sort_by_path_and_filename :
  paths (sort_by_path (mkFileList ["b/1.dv"; "a/2.dv"; "a/1.dv"] ∅))
  = ["a/1.dv"; "a/2.dv"; "b/1.dv"]
  /\ paths (sort_by_filename posix_basename
              (mkFileList ["b/1.dv"; "a/2.dv"; "a/1.dv"] ∅))
     = ["b/1.dv"; "a/1.dv"; "a/2.dv"].
Proof. split; vm_compute; reflexivity. Qed.

(** ** The metadata parser: lines and counts *)

Lemma value_of_no_separator (line : string) :
  Py.partition ": " line = None -> value_of line = Raise IndexError.
Proof. intros H. unfold value_of, Py.split1. now rewrite H. Qed.

Lemma first_nonzero_all_zero (ns : list Z) (z : Z) :
  List.find (fun n => negb (n =? 0)%Z) ns = None ->
  head ns = Some z -> z = 0%Z.
Proof.
  destruct ns as [|n ns]; [discriminate|]. simpl.
  destruct (Z.eqb_spec n 0) as [->|]; simpl; [|discriminate].
  now intros _ [= <-].
Qed.

Section GetMetaFurther.

Variable strptime : string -> string -> option datetime.
Variable int : string -> option Z.

Lemma scan_line_unrecognised (info : FileMeta) (line : string) :
  recognised line = false -> scan_line strptime int info line = Ok info.
Proof.
  unfold recognised.
  intros [[[HR HT]%orb_false_iff HD]%orb_false_iff HF]%orb_false_iff.
  unfold scan_line, scan_recorded_date, scan_tagged_date, scan_duration,
    scan_frame_count.
  rewrite HR. simpl. rewrite HT. simpl. rewrite HD. simpl. rewrite HF.
  reflexivity.
Qed.

Lemma scan_lines_recognised (lines : list string) :
  forall info : FileMeta,
    scan_lines strptime int info lines
    = scan_lines strptime int info (List.filter recognised lines).
Proof.
  induction lines as [|line rest IH]; intros info; [reflexivity|].
  cbn [List.filter]. destruct (recognised line) eqn:E.
  - cbn [scan_lines]. destruct (scan_line strptime int info line);
      simpl; [apply IH | reflexivity].
  - cbn [scan_lines]. rewrite (scan_line_unrecognised info line E). simpl.
    apply IH.
Qed.

(** X12. [get_meta] reads the lines that begin with one of its four
    labels and no other: taking every other line out of the report
    changes neither the record it returns nor the exception it raises. *)
Theorem get_meta_ignores_other_lines (output : string) :
  parse_report strptime int output
  = scan_lines strptime int FileMeta_new
      (List.filter recognised (Py.splitlines output)).
Proof. unfold parse_report. apply scan_lines_recognised. Qed.

Lemma scan_line_label_raises (info : FileMeta) (line : string) :
  value_of line = Raise IndexError ->
  (Py.startswith line "Recorded date" = true ->
   truthy_datetime (fm_datetime info) = false ->
   scan_recorded_date strptime info line = Raise IndexError)
  /\ (Py.startswith line "Tagged date" = true ->
      truthy_datetime (fm_datetime info) = false ->
      scan_tagged_date strptime info line = Raise IndexError)
  /\ (Py.startswith line "Duration" = true ->
      truthy_int (fm_milliseconds info) = false ->
      scan_duration int info line = Raise IndexError)
  /\ (Py.startswith line "Frame count" = true ->
      truthy_int (fm_frames info) = false ->
      scan_frame_count int info line = Raise IndexError).
Proof.
  intros Hv.
  unfold scan_recorded_date, scan_tagged_date, scan_duration,
    scan_frame_count.
  repeat split; intros -> ->; rewrite Hv; reflexivity.
Qed.

Lemma scan_line_label_skips (info : FileMeta) (line : string) :
  (Py.startswith line "Recorded date" = false ->
   scan_recorded_date strptime info line = Ok info)
  /\ (Py.startswith line "Tagged date" = false ->
      scan_tagged_date strptime info line = Ok info)
  /\ (Py.startswith line "Duration" = false ->
      scan_duration int info line = Ok info).
Proof.
  unfold scan_recorded_date, scan_tagged_date, scan_duration.
  repeat split; intros ->; reflexivity.
Qed.

(** X13. A line that begins with a label whose field is still to be set
    and that has no ': ' in it makes [get_meta] raise [IndexError]; this
    holds for a Duration line too, whose [try] passes over [ValueError]
    only. *)
Theorem get_meta_no_separator (info : FileMeta) (line : string)
    (rest : list string) :
  wanted info line = true ->
  Py.partition ": " line = None ->
  scan_lines strptime int info (line :: rest) = Raise IndexError.
Proof.
  intros Hw Hsep. apply value_of_no_separator in Hsep.
  assert (scan_line strptime int info line = Raise IndexError) as Hline.
  { destruct (labels_exclusive line) as (HR & HT & HD & HF).
    destruct (scan_line_label_raises info line Hsep)
      as (RR & RT & RD & RF).
    destruct (scan_line_label_skips info line) as (SR & ST & SD).
    unfold wanted, is_date_line in Hw. unfold scan_line.
    destruct (Py.startswith line "Recorded date") eqn:ER.
    { destruct (HR eq_refl) as (ET & ED & EF).
      rewrite ET, ED, EF in Hw. simpl in Hw. rewrite ?orb_false_r in Hw.
      apply negb_true_iff in Hw. now rewrite (RR eq_refl Hw). }
    rewrite (SR eq_refl). cbn [and_then].
    destruct (Py.startswith line "Tagged date") eqn:ET.
    { destruct (HT eq_refl) as (_ & ED & EF).
      rewrite ED, EF in Hw. simpl in Hw. rewrite ?orb_false_r in Hw.
      apply negb_true_iff in Hw. now rewrite (RT eq_refl Hw). }
    rewrite (ST eq_refl). cbn [and_then].
    destruct (Py.startswith line "Duration") eqn:ED.
    { destruct (HD eq_refl) as (_ & _ & EF).
      rewrite EF in Hw. simpl in Hw. rewrite ?orb_false_r in Hw.
      apply negb_true_iff in Hw. now rewrite (RD eq_refl Hw). }
    rewrite (SD eq_refl). cbn [and_then].
    simpl in Hw.
    destruct (Py.startswith line "Frame count") eqn:EF; [|discriminate].
    simpl in Hw. apply negb_true_iff in Hw. exact (RF eq_refl Hw). }
  cbn [scan_lines]. now rewrite Hline.
Qed.

Lemma scan_duration_settles (info info' : FileMeta) (line : string) :
  scan_duration int info line = Ok info' ->
  fm_frames info' = fm_frames info
  /\ fm_milliseconds info'
     = if truthy_int (fm_milliseconds info) then fm_milliseconds info
       else match labelled_int int "Duration" line with
            | Some n => Some n
            | None => fm_milliseconds info
            end.
Proof.
  unfold scan_duration, labelled_int, int_r.
  destruct (Py.startswith line "Duration"); simpl.
  - destruct (truthy_int (fm_milliseconds info)); simpl;
      [intros [= <-]; auto|].
    destruct (value_of line) as [v|e]; simpl.
    + destruct (int v) as [n|]; simpl; intros [= <-]; auto.
    + destruct e; try discriminate. intros [= <-]. auto.
  - intros [= <-]. now destruct (truthy_int (fm_milliseconds info)).
Qed.

Lemma scan_frame_count_settles (info info' : FileMeta) (line : string) :
  scan_frame_count int info line = Ok info' ->
  fm_milliseconds info' = fm_milliseconds info
  /\ fm_frames info'
     = if truthy_int (fm_frames info) then fm_frames info
       else match labelled_int int "Frame count" line with
            | Some n => Some n
            | None => fm_frames info
            end.
Proof.
  unfold scan_frame_count, labelled_int, int_r.
  destruct (Py.startswith line "Frame count"); simpl.
  - destruct (truthy_int (fm_frames info)); simpl; [intros [= <-]; auto|].
    destruct (value_of line) as [v|e]; simpl; [|discriminate].
    destruct (int v) as [n|]; simpl; [|discriminate].
    intros [= <-]. auto.
  - intros [= <-]. now destruct (truthy_int (fm_frames info)).
Qed.

Lemma scan_line_settles (info info' : FileMeta) (line : string) :
  scan_line strptime int info line = Ok info' ->
  fm_milliseconds info'
  = (if truthy_int (fm_milliseconds info) then fm_milliseconds info
     else match labelled_int int "Duration" line with
          | Some n => Some n
          | None => fm_milliseconds info
          end)
  /\ fm_frames info'
     = (if truthy_int (fm_frames info) then fm_frames info
        else match labelled_int int "Frame count" line with
             | Some n => Some n
             | None => fm_frames info
             end).
Proof.
  unfold scan_line.
  intros (i1 & H1 & H)%and_then_Ok.
  apply and_then_Ok in H as (i2 & H2 & H).
  apply and_then_Ok in H as (i3 & H3 & H4).
  apply scan_recorded_date_Ok in H1 as (M1 & F1 & _).
  apply scan_tagged_date_Ok in H2 as (M2 & F2 & _).
  apply scan_duration_settles in H3 as (F3 & M3).
  apply scan_frame_count_settles in H4 as (M4 & F4).
  rewrite M4, M3, M2, M1. rewrite F4, F3, F2, F1. auto.
Qed.

Lemma settle_step (cur : option Z) (given : option Z) (ns : list Z) :
  settle (if truthy_int cur then cur
          else match given with Some n => Some n | None => cur end) ns
  = settle cur (match given with Some n => n :: ns | None => ns end).
Proof.
  unfold settle at 2.
  destruct (truthy_int cur) eqn:Hc.
  - unfold settle. now rewrite Hc.
  - destruct given as [n|]; [|unfold settle; now rewrite Hc].
    unfold settle, first_nonzero. cbn [List.find head truthy_int].
    destruct (Z.eqb_spec n 0) as [->|Hn]; cbn [negb]; [|reflexivity].
    destruct (List.find (fun n => negb (n =? 0)%Z) ns) eqn:Hf;
      [reflexivity|].
    destruct (head ns) as [z|] eqn:Hh; [|reflexivity].
    now rewrite (first_nonzero_all_zero ns z Hf Hh).
Qed.

Lemma scan_lines_settle (lines : list string) :
  forall info info' : FileMeta,
    scan_lines strptime int info lines = Ok info' ->
    fm_milliseconds info'
    = settle (fm_milliseconds info)
             (omap (labelled_int int "Duration") lines)
    /\ fm_frames info'
       = settle (fm_frames info)
                (omap (labelled_int int "Frame count") lines).
Proof.
  induction lines as [|line rest IH]; intros info info'.
  - intros [= <-]. unfold settle, first_nonzero. simpl.
    split; [now destruct (truthy_int (fm_milliseconds info))
           | now destruct (truthy_int (fm_frames info))].
  - cbn [scan_lines]. intros (i1 & H1 & H2)%and_then_Ok.
    apply scan_line_settles in H1 as [M1 F1].
    apply IH in H2 as [M2 F2].
    rewrite M2, M1, F2, F1, !settle_step.
    split.
    + cbn [omap list_omap].
      now destruct (labelled_int int "Duration" line).
    + cbn [omap list_omap].
      now destruct (labelled_int int "Frame count" line).
Qed.

(** X14. The counts [get_meta] returns: [milliseconds] is the first
    integer that is not zero among those the Duration lines give (the
    lines whose value [int] accepts), zero when they give integers and
    all are zero, unset when they give none; [frames] is the same over
    the Frame count lines. *)
Theorem get_meta_counts (output : string) (info : FileMeta) :
  parse_report strptime int output = Ok info ->
  fm_milliseconds info
  = first_nonzero (omap (labelled_int int "Duration") (Py.splitlines output))
  /\ fm_frames info
     = first_nonzero
         (omap (labelled_int int "Frame count") (Py.splitlines output)).
Proof.
  unfold parse_report. intros H.
  apply scan_lines_settle in H as [HM HF].
  rewrite HM, HF. unfold settle. simpl.
  split; match goal with
         | |- context [first_nonzero ?l] => now destruct (first_nonzero l)
         end.
Qed.

End GetMetaFurther.

Lemma get_meta_no_separator_witness :
  scan_lines Reference.strptime Reference.int FileMeta_new
    ["Duration"; "Frame count: 7"] = Raise IndexError.
Proof.
  apply (get_meta_no_separator Reference.strptime Reference.int
           FileMeta_new "Duration" ["Frame count: 7"]); reflexivity.
Defined.

Lemma get_meta_counts_witness :
  fm_milliseconds (mkFileMeta None (Some 5%Z) (Some 0%Z)) = Some 5%Z
  /\ fm_frames (mkFileMeta None (Some 5%Z) (Some 0%Z)) = Some 0%Z.
Proof.
  destruct (get_meta_counts Reference.strptime Reference.int
              (report ["Duration: 0"; "Duration: 12 s"; "Duration: 5";
                       "Duration: 9"; "Frame count: 0"])
              (mkFileMeta None (Some 5%Z) (Some 0%Z)))
    as [HM HF].
  - vm_compute. reflexivity.
  - split; [rewrite HM | rewrite HF]; vm_compute; reflexivity.
Defined.

(** ** The monitoring loop as a whole *)

Lemma render_chain_app (prev : string) (a b : list string) :
  render_chain prev (a ++ b)
  = render_chain prev a ++ render_chain (default prev (last a)) b.
Proof.
  revert prev. induction a as [|x a IH]; intros prev; [reflexivity|].
  cbn [app render_chain]. rewrite IH. f_equal. f_equal. f_equal.
  rewrite last_cons. now destruct (last a).
Qed.

Lemma default_last_app {A} (d : A) (a b : list A) :
  default d (last (a ++ b)) = default (default d (last a)) (last b).
Proof. rewrite last_app. now destruct (last b). Qed.

Lemma shown_pending (st : Monitor) (r : string) (rs : list string) :
  shown (pending_reads st (r :: rs)) = turn_shown st r ++ shown (r :: rs).
Proof.
  unfold pending_reads, turn_shown.
  destruct (test st) as [l|]; [|reflexivity].
  unfold shown. cbn [tail List.combine List.filter fst snd].
  destruct (Py.startswith l "frame=" && negb (truthy_str (Some r)));
    reflexivity.
Qed.

Lemma monitor_turn_shown (st : Monitor) (r : string) (w : World) :
  monitor_turn st r w
  = (Ok (mkMonitor (Some r) (default (prev_line st) (last (turn_shown st r)))),
     with_console
       (console w ++ render_chain (prev_line st) (turn_shown st r)) w).
Proof.
  unfold turn_shown.
  destruct (truthy_str (Some r)) eqn:Hr.
  - assert (r <> EmptyString) as Hne
      by (intros ->; discriminate).
    rewrite (monitor_turn_new_line st r w Hne).
    destruct (test st) as [l|]; rewrite ?andb_false_r; simpl;
      now rewrite with_console_same.
  - apply truthy_str_Some in Hr. subst r.
    destruct (test st) as [l|] eqn:Ht.
    + destruct (Py.startswith l "frame=") eqn:Hf; cbn [andb negb].
      * now rewrite (monitor_turn_render st l w Ht Hf).
      * unfold monitor_turn. rewrite Ht.
        change (truthy_str (Some EmptyString)) with false. cbv iota.
        change (default EmptyString (Some l)) with l. rewrite Hf.
        destruct (truthy_str (Some l)); unfold bind, ret, sleep_half; simpl;
          now rewrite with_console_same.
    + unfold monitor_turn. rewrite Ht. unfold bind, ret, sleep_half. simpl.
      now rewrite with_console_same.
Qed.

Lemma monitor_loop_shown (rs : list string) :
  forall (st : Monitor) (w : World),
    monitor_loop st rs w
    = (Ok (mkMonitor
             (match last rs with Some r => Some r | None => test st end)
             (default (prev_line st) (last (shown (pending_reads st rs))))),
       with_console
         (console w
          ++ render_chain (prev_line st) (shown (pending_reads st rs))) w).
Proof.
  induction rs as [|r rs IH]; intros st w.
  - assert (shown (pending_reads st []) = []) as ->
      by (unfold pending_reads; now destruct (test st)).
    simpl. unfold ret. rewrite with_console_same. now destruct st.
  - cbn [monitor_loop]. unfold bind. rewrite monitor_turn_shown, IH.
    rewrite shown_pending, render_chain_app, default_last_app.
    cbn [test prev_line pending_reads console].
    f_equal.
    + f_equal. f_equal. rewrite last_cons. now destruct (last rs).
    + unfold with_console. simpl. now rewrite <- app_assoc.
Qed.

(** X15. The monitoring loop as a whole.  Of the lines it reads while the
    process runs it renders those that begin with 'frame=' and are
    directly followed by a read that finds nothing new, each once, in
    the order read, each padded against the one rendered before it; it
    prints nothing else, and always ends.  A progress line that the next
    read follows with a new line, or that is the last read before the
    process ends, is not rendered. *)
Theorem monitor_loop_renders (rs : list string) (w : World) :
  monitor_loop (mkMonitor None EmptyString) rs w
  = (Ok (mkMonitor (last rs) (default EmptyString (last (shown rs)))),
     with_console (console w ++ render_chain EmptyString (shown rs)) w).
Proof.
  rewrite monitor_loop_shown. cbn [test prev_line pending_reads].
  now destruct (last rs).
Qed.

(** The loop on five reads: the second progress line is overtaken by the
    third, which is rendered when the log runs dry; the fourth is the
    last read and stays unseen. *)
Example monitor_loop_five_reads :
  shown ["frame=1" +:+ LF_str; "frame=2" +:+ LF_str; "frame=3" +:+ LF_str;
         EmptyString; "frame=4" +:+ LF_str]
  = ["frame=3" +:+ LF_str]
  /\ shown ["frame=1" +:+ LF_str; EmptyString; EmptyString;
            "Press [q] to stop" +:+ LF_str; EmptyString]
     = ["frame=1" +:+ LF_str].
Proof. split; vm_compute; reflexivity. Qed.

(** ** Running the transcoder: the whole call *)

Section ExecutorFurther.

Variable ffmpeg_exe : string.
Variable can_open_wb : string -> bool.
Variable can_open_r : string -> bool.
Variable popen : list string -> handle -> Process.

(** The world a run that goes to its end leaves, from the world [w1] in
    which the arguments were built. *)
Lemma do_concatenation_world (inputs : list string) (output : string)
    (preset : Preset) (logfile_path : option string) (w w1 : World)
    (params : list string) :
  build_ffmpeg_params preset inputs (started w) = (Ok params, w1) ->
  (truthy_str logfile_path = true ->
   can_open_r (default EmptyString logfile_path) = true) ->
  let args := command_line ffmpeg_exe params output in
  let h := handle_of (open_if_exists can_open_wb logfile_path) in
  let proc := popen args h in
  do_concatenation ffmpeg_exe can_open_wb can_open_r popen
    inputs output preset logfile_path w
  = (Ok tt,
     mkWorld (files w1) (tmp_names w1) (atexit_unlink w1)
       (log_records w1 ++ [executing_record args]
        ++ verdict (truthy_str logfile_path) (returncode proc))
       (console w1 ++ printed (truthy_str logfile_path) (reads proc))
       (spawned w1 ++ [(args, h)])).
Proof.
  intros Hbuild Hread args h proc.
  unfold do_concatenation.
  erewrite bind_Ok by reflexivity.
  erewrite bind_Ok by exact Hbuild.
  erewrite bind_Ok by reflexivity.
  erewrite bind_Ok by reflexivity.
  fold (handle_of (open_if_exists can_open_wb logfile_path)).
  fold (command_line ffmpeg_exe params output). fold args. fold h. fold proc.
  unfold verdict, printed.
  destruct (truthy_str logfile_path) eqn:Hpath.
  - unfold open_r. rewrite (Hread eq_refl).
    destruct (returncode proc =? 0)%Z; cbn [negb].
    + erewrite bind_Ok;
        [|erewrite bind_Ok by reflexivity;
          erewrite bind_Ok by apply monitor_loop_renders;
          erewrite bind_Ok by reflexivity; reflexivity].
      unfold log, with_log_records, with_console, with_spawned. simpl.
      now rewrite <- !app_assoc.
    + erewrite bind_Ok;
        [|erewrite bind_Ok by reflexivity;
          erewrite bind_Ok by apply monitor_loop_renders;
          erewrite bind_Ok by reflexivity; reflexivity].
      unfold ret, log, with_log_records, with_console, with_spawned. simpl.
      now rewrite <- !app_assoc.
  - destruct (returncode proc =? 0)%Z; cbn [negb].
    + erewrite bind_Ok by reflexivity.
      unfold log, with_log_records, with_console, with_spawned. simpl.
      now rewrite <- !app_assoc, app_nil_r.
    + erewrite bind_Ok by reflexivity.
      unfold ret, log, with_log_records, with_console, with_spawned. simpl.
      now rewrite <- !app_assoc, app_nil_r.
Qed.

(** X16. When the arguments cannot be built (the Demux strategy without
    a usable temporary name), [do_concatenation] raises the builder's
    [FileExistsError] before it starts anything: no process is started,
    nothing is written or printed, and all it has logged is that the
    processing starts. *)
Theorem do_concatenation_build_failure (inputs : list string)
    (output : string) (preset : Preset) (logfile_path : option string)
    (w : World) (e : exn) :
  fst (build_ffmpeg_params preset inputs (started w)) = Raise e ->
  e = FileExistsError
  /\ do_concatenation ffmpeg_exe can_open_wb can_open_r popen
       inputs output preset logfile_path w
     = (Raise FileExistsError, started w).
Proof.
  intros H.
  destruct (build_ffmpeg_params preset inputs (started w)) as [r w1] eqn:Hb.
  simpl in H. subst r.
  destruct (build_raises _ _ _ _ _ Hb) as (-> & -> & _ & _).
  split; [reflexivity|].
  unfold do_concatenation.
  erewrite bind_Ok by reflexivity.
  erewrite bind_Raise by exact Hb. reflexivity.
Qed.

(** X17. What a run prints.  With a log path, [do_concatenation] prints
    the progress lines the monitor renders and then one line feed;
    without a log path (none, or the empty string) it prints nothing,
    whatever the process writes. *)
Theorem do_concatenation_console (inputs : list string) (output : string)
    (preset : Preset) (logfile_path : option string) (w w1 : World)
    (params : list string) :
  build_ffmpeg_params preset inputs (started w) = (Ok params, w1) ->
  (truthy_str logfile_path = true ->
   can_open_r (default EmptyString logfile_path) = true) ->
  let proc := popen (command_line ffmpeg_exe params output)
                (handle_of (open_if_exists can_open_wb logfile_path)) in
  console (snd (do_concatenation ffmpeg_exe can_open_wb can_open_r popen
                  inputs output preset logfile_path w))
  = console w1
    ++ if truthy_str logfile_path
       then render_chain EmptyString (shown (reads proc)) ++ [LF_str]
       else [].
Proof.
  intros Hbuild Hread proc.
  rewrite (do_concatenation_world inputs output preset logfile_path w w1
             params Hbuild Hread).
  reflexivity.
Qed.

(** X18. The process of a run.  Once the arguments are built,
    [do_concatenation] starts exactly one process, also when it then
    raises for a log it cannot read.  Its argument vector is the ffmpeg
    executable, the preset's arguments for the inputs, and last the
    overwrite flag "-y" and the output path; its output goes to the log
    file when a log path is given that can be opened for writing, and to
    the null device otherwise. *)
Theorem do_concatenation_process (inputs : list string) (output : string)
    (preset : Preset) (logfile_path : option string) (w w1 : World)
    (params : list string) :
  build_ffmpeg_params preset inputs (started w) = (Ok params, w1) ->
  spawned (snd (do_concatenation ffmpeg_exe can_open_wb can_open_r popen
                  inputs output preset logfile_path w))
  = spawned w1
    ++ [([ffmpeg_exe] ++ params ++ ["-y"; output],
         match logfile_path with
         | Some path =>
             if truthy_str logfile_path && can_open_wb path
             then LogFile path else DEVNULL
         | None => DEVNULL
         end)].
Proof.
  intros Hbuild.
  destruct (do_concatenation_run ffmpeg_exe can_open_wb can_open_r popen
              inputs output preset logfile_path w w1 params Hbuild)
    as [Hsp _].
  rewrite Hsp. unfold command_line, handle_of, open_if_exists.
  destruct logfile_path as [path|]; [|reflexivity].
  now destruct (truthy_str (Some path) && can_open_wb path).
Qed.

(** X19. The Demux strategy through a whole run.  With a Demux preset,
    a usable temporary name [t] and a run that goes to its end, the
    process is started on "-f concat -safe 0 -i t", the preset's encoder
    arguments, "-y" and the output path; when the call returns the
    manifest is still there under [t], with one directive per input, and
    is registered for removal at exit. *)
Theorem do_concatenation_demux (inputs : list string) (output : string)
    (preset : Preset) (logfile_path : option string) (w : World)
    (t : string) :
  concat_strategy preset = CONCAT_DEMUX ->
  fst (mkstemp (started w)) = Ok t ->
  (truthy_str logfile_path = true ->
   can_open_r (default EmptyString logfile_path) = true) ->
  let run := do_concatenation ffmpeg_exe can_open_wb can_open_r popen
               inputs output preset logfile_path w in
  fst run = Ok tt
  /\ files (snd run) !! t = Some (manifest_text inputs)
  /\ In t (atexit_unlink (snd run))
  /\ exists h : handle,
       spawned (snd run)
       = spawned w
         ++ [([ffmpeg_exe; "-f"; "concat"; "-safe"; "0"; "-i"; t]
              ++ ffmpeg_params preset ++ ["-y"; output], h)].
Proof.
  intros Hs Ht Hread run. subst run. unfold mkstemp in Ht.
  destruct (first_unused (files (started w)) (tmp_names (started w)))
    as [[n rest]|] eqn:Hn; [|discriminate].
  simpl in Ht. injection Ht as ->.
  pose proof (build_demux preset inputs (started w) t rest Hs Hn) as Hbuild.
  rewrite (do_concatenation_world inputs output preset logfile_path w _ _
             Hbuild Hread).
  cbn [fst snd files atexit_unlink spawned].
  split; [reflexivity|].
  split; [apply lookup_insert_eq|].
  split; [apply in_or_app; right; now left|].
  eexists. unfold command_line. rewrite <- !app_assoc. reflexivity.
Qed.

End ExecutorFurther.

Lemma do_concatenation_build_failure_witness :
  fst (do_concatenation "ffmpeg" (always true) (always true)
         (silent_process 0) ["a.dv"] "out.dv" preset_copy None
         (with_tmp_names [] world_two_names))
  = Raise FileExistsError.
Proof.
  destruct (do_concatenation_build_failure "ffmpeg" (always true)
              (always true) (silent_process 0) ["a.dv"] "out.dv" preset_copy
              None (with_tmp_names [] world_two_names) FileExistsError)
    as [_ Hrun].
  - reflexivity.
  - now rewrite Hrun.
Defined.

Lemma do_concatenation_console_witness :
  console
    (snd (do_concatenation "ffmpeg" (always true) (always true)
            (fun _ _ => mkProcess [frame_line_8; EmptyString] 0)
            ["a.dv"] "out.dv" preset_copydv (Some "ffmpeg.log")
            world_two_names))
  = ["frame=5" +:+ CR_str; LF_str].
Proof.
  apply (do_concatenation_console "ffmpeg" (always true) (always true)
           (fun _ _ => mkProcess [frame_line_8; EmptyString] 0)
           ["a.dv"] "out.dv" preset_copydv (Some "ffmpeg.log")
           world_two_names (started world_two_names)
           ["-i"; "concat:a.dv"; "-c"; "copy"]).
  - reflexivity.
  - reflexivity.
Defined.

Lemma do_concatenation_process_witness :
  spawned
    (snd (do_concatenation "ffmpeg" (always true) (always false)
            (silent_process 0) ["a.dv"] "out.dv" preset_copydv
            (Some "ffmpeg.log") world_two_names))
  = [(["ffmpeg"; "-i"; "concat:a.dv"; "-c"; "copy"; "-y"; "out.dv"],
      LogFile "ffmpeg.log")].
Proof.
  apply (do_concatenation_process "ffmpeg" (always true) (always false)
           (silent_process 0) ["a.dv"] "out.dv" preset_copydv
           (Some "ffmpeg.log") world_two_names (started world_two_names)
           ["-i"; "concat:a.dv"; "-c"; "copy"]).
  reflexivity.
Defined.

Lemma do_concatenation_demux_witness :
  files
    (snd (do_concatenation "ffmpeg" (always true) (always true)
            (silent_process 0) ["a.dv"; "b.dv"] "out.dv" preset_copy None
            world_two_names)) !! "/tmp/tmpk3x"
  = Some (manifest_text ["a.dv"; "b.dv"]).
Proof.
  apply (do_concatenation_demux "ffmpeg" (always true) (always true)
           (silent_process 0) ["a.dv"; "b.dv"] "out.dv" preset_copy None
           world_two_names "/tmp/tmpk3x").
  - reflexivity.
  - reflexivity.
  - discriminate.
Defined.

(** ** Finding the tools *)

(** X20. [MediaTools()] is made exactly when [which] finds mediainfo and
    finds ffmpeg or avconv.  The object then holds the path of mediainfo,
    and as transcoder the path of ffmpeg whenever ffmpeg is found (under
    a name that is not empty), avconv standing in only when it is not.
    Otherwise the exception is raised: for mediainfo when that is
    missing, whatever else is, for the transcoder when mediainfo is
    there. *)
Theorem MediaTools_init_found (which : string -> option string) :
  match which "mediainfo", which "ffmpeg", which "avconv" with
  | None, _, _ =>
      exists message,
        MediaTools_init which = MediaToolsNotInstalledException message
        /\ Py.startswith message "mediainfo" = true
  | Some mediainfo, Some ffmpeg, avconv =>
      if truthy_str (Some ffmpeg)
      then MediaTools_init which
           = Constructed (mkMediaTools mediainfo ffmpeg)
      else match avconv with
           | Some a =>
               MediaTools_init which = Constructed (mkMediaTools mediainfo a)
           | None =>
               exists message,
                 MediaTools_init which
                 = MediaToolsNotInstalledException message
                 /\ Py.startswith message "ffmpeg or avconv" = true
           end
  | Some mediainfo, None, Some avconv =>
      MediaTools_init which = Constructed (mkMediaTools mediainfo avconv)
  | Some mediainfo, None, None =>
      exists message,
        MediaTools_init which = MediaToolsNotInstalledException message
        /\ Py.startswith message "ffmpeg or avconv" = true
  end.
Proof.
  unfold MediaTools_init, or_else.
  destruct (which "mediainfo") as [m|]; [|eexists; split; reflexivity].
  destruct (which "ffmpeg") as [f|].
  - destruct (truthy_str (Some f)); [reflexivity|].
    destruct (which "avconv"); [reflexivity | eexists; split; reflexivity].
  - simpl. destruct (which "avconv");
      [reflexivity | eexists; split; reflexivity].
Qed.

Lemma add_file_lookup_witness :
  exists self' : FileList,
    add_file (fun _ _ => Ok FileMeta_new) (fun _ => Ok FileMeta_new)
      (mkFileList ["b.dv"] (<["b.dv" := mkFileMeta None (Some 9%Z) None]> ∅))
      "a.dv" = Ok self'
    /\ FileList_get_meta self' "a.dv" = Some FileMeta_new
    /\ FileList_get_meta self' "b.dv" = Some (mkFileMeta None (Some 9%Z) None)
    /\ FileList_get_paths self' = ["b.dv"; "a.dv"].
Proof.
  destruct (add_file_lookup (fun _ _ => Ok FileMeta_new)
              (fun _ => Ok FileMeta_new)
              (mkFileList ["b.dv"]
                 (<["b.dv" := mkFileMeta None (Some 9%Z) None]> ∅)) "a.dv")
    as (self' & Hadd & Hnew & Hold & Hpaths).
  exists self'. split; [exact Hadd|]. split; [exact Hnew|].
  split; [|exact Hpaths].
  rewrite (Hold "b.dv") by discriminate. reflexivity.
Defined.
